(** * pymc.distributions.continuous: log-densities, sampling and truncation

    A shallow embedding of [pymc/distributions/continuous.py] and the
    properties of its specification.

    Numbers.  The module computes with IEEE-754 doubles (Python floats,
    numpy arrays, Theano tensors).  They are modelled as the extended reals
    with a NaN: the special values and the way they propagate are kept,
    rounding, overflow and the sign of zero are not.  Arithmetic follows the
    array semantics of numpy and Theano: it never raises, division by zero
    gives an infinity or NaN.  On plain Python numbers the source raises
    [ZeroDivisionError] at a zero divisor instead, so the theorems about
    parameters exclude the zero divisors of the constructor and of the
    method they describe, and they state what the code computes, not
    identities of real algebra that rounding breaks.

    Arrays.  A numeric value is a scalar or a one-dimensional array; binary
    operations broadcast, and operands that cannot be broadcast raise
    [ValueError].  An expression over a stochastic reference is symbolic; the
    model keeps it opaque ([Sym]).

    Objects.  An instance is its class and its [__dict__], a finite map from
    attribute names to values.  Exceptions are results. *)

From Stdlib Require Import Reals ROrderedType Lra ZArith.
From stdpp Require Import base option list strings gmap.

(** ** Numbers *)

Module Num.

Inductive num : Type :=
| NaN
| NInf
| PInf
| Fin (r : R).

Definition opp (x : num) : num :=
  match x with
  | NaN => NaN
  | NInf => PInf
  | PInf => NInf
  | Fin r => Fin (- r)
  end.

Definition add (x y : num) : num :=
  match x, y with
  | NaN, _ | _, NaN => NaN
  | PInf, NInf | NInf, PInf => NaN
  | PInf, _ | _, PInf => PInf
  | NInf, _ | _, NInf => NInf
  | Fin a, Fin b => Fin (a + b)
  end.

Definition sub (x y : num) : num := add x (opp y).

(** The sign of a number: [Lt] negative, [Eq] zero, [Gt] positive. *)
Definition sgn (x : num) : option comparison :=
  match x with
  | NaN => None
  | NInf => Some Lt
  | PInf => Some Gt
  | Fin r => Some (Rcompare r 0)
  end.

Definition sgn_mul (c1 c2 : comparison) : comparison :=
  match c1, c2 with
  | Eq, _ | _, Eq => Eq
  | Lt, Lt | Gt, Gt => Gt
  | _, _ => Lt
  end.

(** The infinity of a given sign; zero times infinity is NaN. *)
Definition inf_of (c : comparison) : num :=
  match c with
  | Lt => NInf
  | Gt => PInf
  | Eq => NaN
  end.

Definition mul (x y : num) : num :=
  match x, y with
  | Fin a, Fin b => Fin (a * b)
  | _, _ =>
      match sgn x, sgn y with
      | Some c1, Some c2 => inf_of (sgn_mul c1 c2)
      | _, _ => NaN
      end
  end.

(** Division.  A finite number over zero is the infinity of the sign of the
    numerator, [0 / 0] is NaN; zero carries no sign, so it divides like [+0].
    This is the division of arrays and tensors; on plain Python numbers a
    zero divisor raises, and the theorems about constructor arguments
    exclude it. *)
Definition div (x y : num) : num :=
  match x, y with
  | NaN, _ | _, NaN => NaN
  | Fin a, Fin b =>
      match Rcompare b 0 with
      | Eq => inf_of (Rcompare a 0)
      | _ => Fin (a / b)
      end
  | Fin _, _ => Fin 0
  | _, Fin b =>
      match Rcompare b 0 with
      | Lt => opp x
      | _ => x
      end
  | _, _ => NaN
  end.

Definition abs (x : num) : num :=
  match x with
  | NaN => NaN
  | NInf | PInf => PInf
  | Fin r => Fin (Rabs r)
  end.

Definition sign (x : num) : num :=
  match x with
  | NaN => NaN
  | NInf => Fin (-1)
  | PInf => Fin 1
  | Fin r =>
      match Rcompare r 0 with
      | Lt => Fin (-1)
      | Eq => Fin 0
      | Gt => Fin 1
      end
  end.

(** Natural logarithm: NaN below zero, minus infinity at zero. *)
Definition log (x : num) : num :=
  match x with
  | NaN | NInf => NaN
  | PInf => PInf
  | Fin r =>
      match Rcompare r 0 with
      | Lt => NaN
      | Eq => NInf
      | Gt => Fin (ln r)
      end
  end.

Definition exp (x : num) : num :=
  match x with
  | NaN => NaN
  | NInf => Fin 0
  | PInf => PInf
  | Fin r => Fin (Rtrigo_def.exp r)
  end.

Definition sqrt (x : num) : num :=
  match x with
  | NaN | NInf => NaN
  | PInf => PInf
  | Fin r =>
      match Rcompare r 0 with
      | Lt => NaN
      | _ => Fin (R_sqrt.sqrt r)
      end
  end.

Definition tan (x : num) : num :=
  match x with
  | Fin r => Fin (Rtrigo1.tan r)
  | _ => NaN
  end.

(** [x ** n] for an integer literal [n]: repeated multiplication, and its
    reciprocal for a negative exponent.  At zero with a negative exponent
    plain Python numbers raise; see [div]. *)
Definition pow (x : num) (n : Z) : num :=
  match n with
  | Z0 => Fin 1
  | Zpos p => Pos.iter_op mul p x
  | Zneg p => div (Fin 1) (Pos.iter_op mul p x)
  end.

Definition leb (x y : num) : bool :=
  match x, y with
  | NaN, _ | _, NaN => false
  | NInf, _ => true
  | _, PInf => true
  | Fin a, Fin b =>
      match Rcompare a b with
      | Gt => false
      | _ => true
      end
  | _, _ => false
  end.

Definition ltb (x y : num) : bool :=
  match x, y with
  | NaN, _ | _, NaN => false
  | NInf, NInf | PInf, PInf => false
  | NInf, _ => true
  | _, PInf => true
  | Fin a, Fin b =>
      match Rcompare a b with
      | Lt => true
      | _ => false
      end
  | _, _ => false
  end.

Definition geb (x y : num) : bool := leb y x.
Definition gtb (x y : num) : bool := ltb y x.

Definition eqb (x y : num) : bool :=
  match x, y with
  | NInf, NInf | PInf, PInf => true
  | Fin a, Fin b =>
      match Rcompare a b with
      | Eq => true
      | _ => false
      end
  | _, _ => false
  end.

(** The larger of two numbers; a NaN operand gives NaN. *)
Definition maximum (x y : num) : num :=
  match x, y with
  | NaN, _ | _, NaN => NaN
  | _, _ => if ltb x y then y else x
  end.

Definition pi : num := Fin PI.
Definition inf : num := PInf.

(** Truth value of a number: zero is false, everything else (NaN too) true. *)
Definition truthy (x : num) : bool := negb (eqb x (Fin 0)).

End Num.

Export Num.

(** ** Exceptions and results *)

Inductive exn : Type :=
| ValueError (msg : string)
| TypeError (msg : string)
| AttributeError (msg : string)
| NameError (msg : string)
| IndexError (msg : string)
| NotImplementedError (msg : string).

Inductive res (A : Type) : Type :=
| Ok (a : A)
| Raise (e : exn).

Arguments Ok {A} a.
Arguments Raise {A} e.

#[global] Instance res_ret : MRet res := fun A a => Ok a.
#[global] Instance res_bind : MBind res := fun A B f m =>
  match m with
  | Ok a => f a
  | Raise e => Raise e
  end.
#[global] Instance res_fmap : FMap res := fun A B f m =>
  match m with
  | Ok a => Ok (f a)
  | Raise e => Raise e
  end.

(** Sequencing, written [x ← m; k]: an exception of [m] ends the
    computation. *)
Definition and_then {A B} (m : res A) (k : A -> res B) : res B :=
  match m with
  | Ok a => k a
  | Raise e => Raise e
  end.

Declare Scope py_scope.
Delimit Scope py_scope with py.
Bind Scope py_scope with res.

Notation "x ← y ; z" := (and_then y (fun x => z%py))
  (at level 20, y at level 100, z at level 200, only parsing) : py_scope.
Notation "' x ← y ; z" := (and_then y (fun x => z%py))
  (at level 20, x pattern, y at level 100, z at level 200, only parsing)
  : py_scope.

(** ** Arrays of rank at most one *)

Inductive tensor (A : Type) : Type :=
| Scalar (a : A)
| Vec (l : list A).

Arguments Scalar {A} a.
Arguments Vec {A} l.

Definition tmap {A B} (f : A -> B) (t : tensor A) : tensor B :=
  match t with
  | Scalar a => Scalar (f a)
  | Vec l => Vec (map f l)
  end.

(** Elementwise binary operation with broadcasting: a scalar, or an array of
    length one, is stretched to the other operand; two arrays of different
    lengths (neither of length one) cannot be broadcast. *)
Definition tmap2 {A B C} (f : A -> B -> C) (s : tensor A) (t : tensor B)
  : option (tensor C) :=
  match s, t with
  | Scalar a, Scalar b => Some (Scalar (f a b))
  | Scalar a, Vec l => Some (Vec (map (f a) l))
  | Vec l, Scalar b => Some (Vec (map (fun a => f a b) l))
  | Vec l1, Vec l2 =>
      if decide (length l1 = length l2) then Some (Vec (zip_with f l1 l2))
      else match l1, l2 with
           | [a], _ => Some (Vec (map (f a) l2))
           | _, [b] => Some (Vec (map (fun a => f a b) l1))
           | _, _ => None
           end
  end.

(** The element at index [i]; a scalar is stretched to every index. *)
Definition tget {A} (t : tensor A) (i : nat) : option A :=
  match t with
  | Scalar a => Some a
  | Vec l => l !! i
  end.

(** A numeric expression: a concrete array, or a symbolic expression built
    from a stochastic reference. *)
Inductive numeric : Type :=
| Num (t : tensor num)
| Sym.

(** A boolean expression, the result of a comparison. *)
Inductive cond : Type :=
| Cond (t : tensor bool)
| CSym.

Definition broadcast_error : exn :=
  ValueError "operands could not be broadcast together".

Definition lift1 (f : num -> num) (x : res numeric) : res numeric :=
  match x with
  | Ok (Num t) => Ok (Num (tmap f t))
  | Ok Sym => Ok Sym
  | Raise e => Raise e
  end.

Definition lift2 (f : num -> num -> num) (x y : res numeric) : res numeric :=
  match x, y with
  | Raise e, _ => Raise e
  | _, Raise e => Raise e
  | Ok (Num s), Ok (Num t) =>
      match tmap2 f s t with
      | Some r => Ok (Num r)
      | None => Raise broadcast_error
      end
  | _, _ => Ok Sym
  end.

Definition compare2 (f : num -> num -> bool) (x y : res numeric) : res cond :=
  match x, y with
  | Raise e, _ => Raise e
  | _, Raise e => Raise e
  | Ok (Num s), Ok (Num t) =>
      match tmap2 f s t with
      | Some r => Ok (Cond r)
      | None => Raise broadcast_error
      end
  | _, _ => Ok CSym
  end.

(** A float literal. *)
Definition lit (r : R) : res numeric := Ok (Num (Scalar (Fin r))).
Definition const (x : num) : res numeric := Ok (Num (Scalar x)).

Notation "x + y" := (lift2 Num.add x y) : py_scope.
Notation "x - y" := (lift2 Num.sub x y) : py_scope.
Notation "x * y" := (lift2 Num.mul x y) : py_scope.
Notation "x / y" := (lift2 Num.div x y) : py_scope.
Notation "- x" := (lift1 Num.opp x) : py_scope.
Notation "x ** n" := (lift1 (fun a => Num.pow a n) x)
  (at level 30, right associativity) : py_scope.
Notation "x <= y" := (compare2 Num.leb x y) : py_scope.
Notation "x < y" := (compare2 Num.ltb x y) : py_scope.
Notation "x >= y" := (compare2 Num.geb x y) : py_scope.
Notation "x > y" := (compare2 Num.gtb x y) : py_scope.

Definition log (x : res numeric) : res numeric := lift1 Num.log x.
Definition exp (x : res numeric) : res numeric := lift1 Num.exp x.
Definition abs (x : res numeric) : res numeric := lift1 Num.abs x.
Definition maximum (x y : res numeric) : res numeric := lift2 Num.maximum x y.
Definition zeros_like (x : res numeric) : res numeric := lift1 (fun _ => Fin 0) x.
Definition sqrt (x : res numeric) : res numeric := lift1 Num.sqrt x.
Definition tan (x : res numeric) : res numeric := lift1 Num.tan x.
Definition sign (x : res numeric) : res numeric := lift1 Num.sign x.
Definition pi : res numeric := const Num.pi.
Definition inf : res numeric := const Num.inf.

(** Modelled from the spec: [logpow] of the absent [dist_math] module, which
    the table of variants writes as the exponent times the logarithm. *)
Definition logpow (x m : res numeric) : res numeric := (m * log x)%py.

(** A comparison used as a number, as in [(nu > 2) * 1]. *)
Definition as_number (c : res cond) : res numeric :=
  match c with
  | Ok (Cond t) => Ok (Num (tmap (fun b : bool => if b then Fin 1 else Fin 0) t))
  | Ok CSym => Ok Sym
  | Raise e => Raise e
  end.

(** Modelled from the spec: [switch] of the absent [dist_math] module, the
    elementwise choice between two expressions on a condition that is a
    number (nonzero for true). *)
Definition switch (c a b : res numeric) : res numeric :=
  match c, a, b with
  | Raise e, _, _ => Raise e
  | _, Raise e, _ => Raise e
  | _, _, Raise e => Raise e
  | Ok (Num ct), Ok (Num at_), Ok (Num bt) =>
      match tmap2 (fun x y => (x, y)) at_ bt with
      | Some pairs =>
          match tmap2 (fun (c : num) (p : num * num) =>
                         if truthy c then p.1 else p.2) ct pairs with
          | Some r => Ok (Num r)
          | None => Raise broadcast_error
          end
      | None => Raise broadcast_error
      end
  | _, _, _ => Ok Sym
  end.

(** ** The Bounded-Elementwise-Selector *)

Definition cand (x y : res cond) : res cond :=
  match x, y with
  | Raise e, _ => Raise e
  | _, Raise e => Raise e
  | Ok (Cond s), Ok (Cond t) =>
      match tmap2 andb s t with
      | Some r => Ok (Cond r)
      | None => Raise broadcast_error
      end
  | _, _ => Ok CSym
  end.

(** The conjunction of all the constraints, elementwise. *)
Definition alltrue (constraints : list (res cond)) : res cond :=
  fold_left cand constraints (Ok (Cond (Scalar true))).

(** Modelled from the spec: [bound] of the absent [dist_math] module.
    Elementwise, where every constraint holds the result is [expr], where a
    constraint fails it is negative infinity; operands are broadcast to a
    common shape.  The arguments are evaluated before the call, [expr]
    first, so that an exception of [expr] comes first. *)
Definition bound (expr : res numeric) (constraints : list (res cond))
  : res numeric :=
  match expr, alltrue constraints with
  | Raise e, _ => Raise e
  | _, Raise e => Raise e
  | Ok (Num et), Ok (Cond ct) =>
      match tmap2 (fun (c : bool) (x : num) => if c then x else NInf) ct et with
      | Some r => Ok (Num r)
      | None => Raise broadcast_error
      end
  | _, _ => Ok Sym
  end.

(** *** Reading the selector elementwise *)

(** An operand fits the common length [n] when it is a scalar or an array of
    [n] elements. *)
Definition fits {A} (n : nat) (t : tensor A) : Prop :=
  match t with
  | Scalar _ => True
  | Vec l => length l = n
  end.

(** Whether every constraint holds at index [i]. *)
Definition all_hold (cts : list (tensor bool)) (i : nat) : bool :=
  forallb (fun c => bool_decide (tget c i = Some true)) cts.

(** ** Python values and instances *)

(** A fixed state: variable names mapped to numeric values. *)
Abbreviation point := (gmap string (tensor num)).

(** The state of the random number generator. *)
Definition rng : Type := nat.

(** A computation that may draw random numbers and may raise. *)
Definition M (A : Type) : Type := rng -> res A * rng.

#[global] Instance M_ret : MRet M := fun A a s => (Ok a, s).

Definition liftM {A} (r : res A) : M A := fun s => (r, s).

Definition then_run {A B} (m : M A) (k : A -> M B) : M B :=
  fun s =>
    match m s with
    | (Ok a, s') => k a s'
    | (Raise e, s') => (Raise e, s')
    end.

Declare Scope run_scope.
Delimit Scope run_scope with run.
Bind Scope run_scope with M.

Notation "x ← y ; z" := (then_run y (fun x => z%run))
  (at level 20, y at level 100, z at level 200, only parsing) : run_scope.
Notation "' x ← y ; z" := (then_run y (fun x => z%run))
  (at level 20, x pattern, y at level 100, z at level 200, only parsing)
  : run_scope.

(** The classes of the module. *)
Inductive cls : Type :=
| Uniform | Flat | Normal | Beta | Exponential | Laplace | Lognormal | T
| Cauchy | Gamma | Bounded.

#[warnings="-register-all"]
Inductive pyval : Type :=
| VNone
| VVal (v : numeric)
| VStr (s : string)
| VRef (name : string) (random : option point -> M numeric)
    (* a stochastic reference: a model variable with a name and a sampler *)
| VList (l : list pyval)
| VDict (d : gmap string pyval)
| VCls (c : cls)
| VSelf
    (* the instance whose [__dict__] holds this entry *)
| VObj (c : cls) (d : gmap string pyval).

Definition number (r : R) : pyval := VVal (Num (Scalar (Fin r))).

(** A value as an operand of arithmetic: a stochastic reference stands for a
    symbolic variable, anything that is not a number is a type error. *)
Definition num_of (v : pyval) : res numeric :=
  match v with
  | VVal x => Ok x
  | VRef _ _ => Ok Sym
  | _ => Raise (TypeError "unsupported operand type")
  end.

Definition ev (v : numeric) : res numeric := Ok v.
Coercion ev : numeric >-> res.

Definition getattr (self : gmap string pyval) (a : string) : res pyval :=
  match self !! a with
  | Some v => Ok v
  | None => Raise (AttributeError a)
  end.

Definition setattr (self : gmap string pyval) (a : string) (v : pyval)
  : gmap string pyval := <[a := v]> self.

(** The binding of the arguments of a call to the parameters that follow
    [self], each with its default when it has one.  The result is the values
    of the parameters, the surplus positional arguments ([*args]) and the
    surplus keyword arguments ([**kwargs]). *)
Fixpoint bind_params (params : list (string * option pyval))
    (args : list pyval) (kwargs : gmap string pyval)
  : res (list pyval * list pyval * gmap string pyval) :=
  match params with
  | [] => Ok ([], args, kwargs)
  | (p, default) :: params' =>
      match args with
      | a :: args' =>
          match kwargs !! p with
          | Some _ => Raise (TypeError ("got multiple values for argument " +:+ p))
          | None =>
              '(vs, rest, kw) ← bind_params params' args' kwargs;
              Ok (a :: vs, rest, kw)
          end
      | [] =>
          match kwargs !! p, default with
          | Some v, _ =>
              '(vs, rest, kw) ← bind_params params' [] (delete p kwargs);
              Ok (v :: vs, rest, kw)
          | None, Some v =>
              '(vs, rest, kw) ← bind_params params' [] kwargs;
              Ok (v :: vs, rest, kw)
          | None, None =>
              Raise (TypeError ("missing required argument " +:+ p))
          end
      end
  end.

(** Modelled from the spec: the constructor of the absent base class
    [Continuous], which does the shape bookkeeping: it stores the output
    shape, the empty tuple unless [shape] is given. *)
Definition Continuous_init (self : gmap string pyval) (args : list pyval)
    (kwargs : gmap string pyval) : res (gmap string pyval) :=
  '(vs, _, _) ← bind_params [("shape", Some (VList []))] args kwargs;
  match vs with
  | [shape] => Ok (setattr self "shape" shape)
  | _ => Raise (TypeError "shape")
  end.

(** ** Construction of the variants *)

Definition get_tau (tau sd : pyval) : res pyval :=
  match tau with
  | VNone =>
      match sd with
      | VNone => Ok (number 1)
      | _ => VVal <$> (num_of sd ** (-2))%py
      end
  | _ =>
      match sd with
      | VNone => Ok tau
      | _ => Raise (ValueError "Can't pass both tau and sd")
      end
  end.

(** The parameterization-conflict error. *)
Definition conflict : exn := ValueError "Can't pass both tau and sd".

Definition Uniform_init (self : gmap string pyval) (lower upper : pyval)
    (args : list pyval) (kwargs : gmap string pyval)
  : res (gmap string pyval) :=
  self ← Continuous_init self args kwargs;
  let self := setattr self "lower" lower in
  let self := setattr self "upper" upper in
  mean ← ((num_of upper + num_of lower) / lit 2)%py;
  let self := setattr self "mean" (VVal mean) in
  median ← getattr self "mean";
  Ok (setattr self "median" median).

Definition Flat_init (self : gmap string pyval)
    (args : list pyval) (kwargs : gmap string pyval)
  : res (gmap string pyval) :=
  self ← Continuous_init self args kwargs;
  Ok (setattr self "median" (number 0)).

Definition Normal_init (self : gmap string pyval) (mu tau sd : pyval)
    (args : list pyval) (kwargs : gmap string pyval)
  : res (gmap string pyval) :=
  self ← Continuous_init self args kwargs;
  let self := setattr self "mean" mu in
  let self := setattr self "median" mu in
  let self := setattr self "mode" mu in
  let self := setattr self "mu" mu in
  tau ← get_tau tau sd;
  let self := setattr self "tau" tau in
  variance ← (lit 1 / (getattr self "tau" ≫= num_of))%py;
  Ok (setattr self "variance" (VVal variance)).

Definition Beta_init (self : gmap string pyval) (alpha beta : pyval)
    (args : list pyval) (kwargs : gmap string pyval)
  : res (gmap string pyval) :=
  self ← Continuous_init self args kwargs;
  let self := setattr self "alpha" alpha in
  let self := setattr self "beta" beta in
  let alpha := num_of alpha in
  let beta := num_of beta in
  mean ← (alpha / (alpha + beta))%py;
  let self := setattr self "mean" (VVal mean) in
  variance ← (alpha * beta /
                ((alpha + beta) ** 2 * (alpha + beta + lit 1)))%py;
  Ok (setattr self "variance" (VVal variance)).

Definition Exponential_init (self : gmap string pyval) (lam : pyval)
    (args : list pyval) (kwargs : gmap string pyval)
  : res (gmap string pyval) :=
  self ← Continuous_init self args kwargs;
  let self := setattr self "lam" lam in
  let lam := num_of lam in
  mean ← (lit 1 / lam)%py;
  let self := setattr self "mean" (VVal mean) in
  median ← ((getattr self "mean" ≫= num_of) * log (lit 2))%py;
  let self := setattr self "median" (VVal median) in
  let self := setattr self "mode" (number 0) in
  variance ← (lam ** (-2))%py;
  Ok (setattr self "variance" (VVal variance)).

Definition Laplace_init (self : gmap string pyval) (mu b : pyval)
    (args : list pyval) (kwargs : gmap string pyval)
  : res (gmap string pyval) :=
  self ← Continuous_init self args kwargs;
  let self := setattr self "b" b in
  let self := setattr self "mean" mu in
  let self := setattr self "median" mu in
  let self := setattr self "mode" mu in
  let self := setattr self "mu" mu in
  variance ← (lit 2 * num_of b ** 2)%py;
  Ok (setattr self "variance" (VVal variance)).

Definition Lognormal_init (self : gmap string pyval) (mu tau : pyval)
    (args : list pyval) (kwargs : gmap string pyval)
  : res (gmap string pyval) :=
  self ← Continuous_init self args kwargs;
  let self := setattr self "mu" mu in
  let self := setattr self "tau" tau in
  let mu := num_of mu in
  let tau := num_of tau in
  mean ← exp (mu + lit 1 / (lit 2 * tau))%py;
  let self := setattr self "mean" (VVal mean) in
  median ← exp mu;
  let self := setattr self "median" (VVal median) in
  mode ← exp (mu - lit 1 / tau)%py;
  let self := setattr self "mode" (VVal mode) in
  variance ← ((exp (lit 1 / tau) - lit 1)
              * exp (lit 2 * mu + lit 1 / tau))%py;
  Ok (setattr self "variance" (VVal variance)).

Definition T_init (self : gmap string pyval) (nu mu lam : pyval)
    (args : list pyval) (kwargs : gmap string pyval)
  : res (gmap string pyval) :=
  self ← Continuous_init self args kwargs;
  let self := setattr self "nu" nu in
  let self := setattr self "lam" lam in
  let self := setattr self "mean" mu in
  let self := setattr self "median" mu in
  let self := setattr self "mode" mu in
  let self := setattr self "mu" mu in
  let nu := num_of nu in
  let lam := num_of lam in
  variance ← switch (as_number (nu > lit 2) * lit 1)%py
                    (nu / (nu - lit 2) / lam)%py inf;
  Ok (setattr self "variance" (VVal variance)).

Definition Cauchy_init (self : gmap string pyval) (alpha beta : pyval)
    (args : list pyval) (kwargs : gmap string pyval)
  : res (gmap string pyval) :=
  self ← Continuous_init self args kwargs;
  let self := setattr self "median" alpha in
  let self := setattr self "mode" alpha in
  let self := setattr self "alpha" alpha in
  Ok (setattr self "beta" beta).

Definition Gamma_init (self : gmap string pyval) (alpha beta : pyval)
    (args : list pyval) (kwargs : gmap string pyval)
  : res (gmap string pyval) :=
  self ← Continuous_init self args kwargs;
  let self := setattr self "alpha" alpha in
  let self := setattr self "beta" beta in
  let alpha := num_of alpha in
  let beta := num_of beta in
  mean ← (alpha / beta)%py;
  let self := setattr self "mean" (VVal mean) in
  median ← maximum ((alpha - lit 1) / beta)%py (lit 0);
  let self := setattr self "median" (VVal median) in
  variance ← (alpha / beta ** 2)%py;
  Ok (setattr self "variance" (VVal variance)).

(** ** The truncation combinator *)

(** [o.__dict__] *)
Definition dict_of (o : pyval) : res (gmap string pyval) :=
  match o with
  | VObj _ d => Ok d
  | _ => Raise (AttributeError "__dict__")
  end.

(** [d.update(other)]: the entries of [other] replace those of [d]. *)
Definition update (d other : gmap string pyval) : gmap string pyval :=
  other ∪ d.

(** [hasattr(o, a)] for an instance attribute. *)
Definition hasattr (o : pyval) (a : string) : bool :=
  match o with
  | VObj _ d => bool_decide (is_Some (d !! a))
  | _ => false
  end.

Section Bounded.

(** [distribution.dist] applied to the forwarded arguments, the class method of the absent
    base class that builds an instance of [distribution]. *)
Variable dist : pyval -> list pyval -> gmap string pyval -> res pyval.

Definition Bounded_init (self : gmap string pyval)
    (distribution lower upper : pyval)
    (args : list pyval) (kwargs : gmap string pyval)
  : res (gmap string pyval) :=
  inner ← dist distribution args kwargs;
  let self := setattr self "dist" inner in
  d ← getattr self "dist" ≫= dict_of;
  let self := update self d in
  let locals : gmap string pyval :=
    {[ "self" := VSelf; "distribution" := distribution;
       "lower" := lower; "upper" := upper;
       "args" := VList args; "kwargs" := VDict kwargs ]} in
  let self := update self locals in
  inner ← getattr self "dist";
  if hasattr inner "mode" then
    mode ← (d ← dict_of inner; getattr d "mode");
    Ok (setattr self "mode" mode)
  else Ok self.

(** The parameters of [__init__] after [self], with their defaults. *)
Definition signature (c : cls) : list (string * option pyval) :=
  match c with
  | Uniform => [("lower", Some (number 0)); ("upper", Some (number 1))]
  | Flat => []
  | Normal => [("mu", Some (number 0)); ("tau", Some VNone);
               ("sd", Some VNone)]
  | Beta => [("alpha", None); ("beta", None)]
  | Exponential => [("lam", None)]
  | Laplace => [("mu", None); ("b", None)]
  | Lognormal => [("mu", Some (number 0)); ("tau", Some (number 1))]
  | T => [("nu", None); ("mu", Some (number 0)); ("lam", Some (number 1))]
  | Cauchy => [("alpha", None); ("beta", None)]
  | Gamma => [("alpha", None); ("beta", None)]
  | Bounded => [("distribution", None); ("lower", None); ("upper", None)]
  end.

(** [c.__init__] applied to the arguments of a call *)
Definition init (c : cls) (self : gmap string pyval)
    (args : list pyval) (kwargs : gmap string pyval)
  : res (gmap string pyval) :=
  '(vs, args, kwargs) ← bind_params (signature c) args kwargs;
  match c, vs with
  | Uniform, [lower; upper] => Uniform_init self lower upper args kwargs
  | Flat, [] => Flat_init self args kwargs
  | Normal, [mu; tau; sd] => Normal_init self mu tau sd args kwargs
  | Beta, [alpha; beta] => Beta_init self alpha beta args kwargs
  | Exponential, [lam] => Exponential_init self lam args kwargs
  | Laplace, [mu; b] => Laplace_init self mu b args kwargs
  | Lognormal, [mu; tau] => Lognormal_init self mu tau args kwargs
  | T, [nu; mu; lam] => T_init self nu mu lam args kwargs
  | Cauchy, [alpha; beta] => Cauchy_init self alpha beta args kwargs
  | Gamma, [alpha; beta] => Gamma_init self alpha beta args kwargs
  | Bounded, [distribution; lower; upper] =>
      Bounded_init self distribution lower upper args kwargs
  | _, _ => Raise (TypeError "__init__")
  end.

End Bounded.

(** Modelled from the spec: the class method [dist] of the absent base
    class, which creates an instance of the class and runs its [__init__]
    on the arguments.  A [Bounded] builds its inner instance the same way;
    every level takes three of the arguments, so their number bounds the
    depth. *)
Fixpoint dist_upto (n : nat) (c : pyval) (args : list pyval)
    (kwargs : gmap string pyval) : res pyval :=
  match c with
  | VCls c =>
      let inner :=
        match n with
        | O => fun _ _ _ => Raise (TypeError "dist")
        | S n' => dist_upto n'
        end in
      d ← init inner c ∅ args kwargs;
      Ok (VObj c d)
  | _ => Raise (AttributeError "dist")
  end.

Definition dist (c : pyval) (args : list pyval) (kwargs : gmap string pyval)
  : res pyval :=
  dist_upto (length args + size kwargs) c args kwargs.

(** Modelled from the spec: instantiation of a class on a name and further arguments, through
    the absent base class, which names the variable after the first
    argument and builds the instance from the others. *)
Definition new (c : pyval) (name : pyval) (args : list pyval)
    (kwargs : gmap string pyval) : res (pyval * pyval) :=
  o ← dist c args kwargs;
  Ok (name, o).

(** The template [Bound(distribution, lower=-inf, upper=inf)]. *)
Record Bound : Type := mkBound {
  distribution : pyval;
  lower : pyval;
  upper : pyval
}.

Definition Bound_init (args : list pyval) (kwargs : gmap string pyval)
  : res Bound :=
  '(vs, rest, kw) ← bind_params
      [("distribution", None); ("lower", Some (VVal (Num (Scalar NInf))));
       ("upper", Some (VVal (Num (Scalar PInf))))] args kwargs;
  match vs, rest, size kw with
  | [distribution; lower; upper], [], O =>
      Ok (mkBound distribution lower upper)
  | _, _, _ => Raise (TypeError "__init__")
  end.

Definition Bound_call (self : Bound) (args : list pyval)
    (kwargs : gmap string pyval) : res (pyval * pyval) :=
  match args with
  | [] => Raise (IndexError "tuple index out of range")
  | first :: args =>
      new (VCls Bounded) first
        (distribution self :: lower self :: upper self :: args) kwargs
  end.

(** [Bound.dist] names [self] without taking it as a parameter. *)
Definition Bound_dist (args : list pyval) (kwargs : gmap string pyval)
  : res pyval :=
  Raise (NameError "self").

Definition Tpos : Bound :=
  mkBound (VCls T) (number 0) (VVal (Num (Scalar PInf))).

(** ** Objects as the methods see them *)

(** A value together with its bound methods: [logp] when its class has
    one, [random] when it exposes a sampling capability. *)
Record view : Type := View {
  v_val : pyval;
  v_logp : option (numeric -> res numeric);
  v_random : option (option point -> M numeric)
}.

Definition plain (v : pyval) : view := View v None None.

(** A stochastic reference with its sampler. *)
Definition reference (name : string) (random : option point -> M numeric)
  : view := View (VRef name random) None (Some random).

Definition attr (self : gmap string view) (a : string) : res view :=
  match self !! a with
  | Some v => Ok v
  | None => Raise (AttributeError a)
  end.

(** An attribute read as an operand of arithmetic. *)
Definition numattr (self : gmap string view) (a : string) : res numeric :=
  v ← attr self a; num_of (v_val v).

(** [item.name] as a key of a fixed state: the keys are strings. *)
Definition name_of (item : view) : res (option string) :=
  match v_val item with
  | VRef name _ => Ok (Some name)
  | VObj _ d =>
      match d !! "name" with
      | Some (VStr s) => Ok (Some s)
      | Some _ => Ok None
      | None => Raise (AttributeError "name")
      end
  | _ => Raise (AttributeError "name")
  end.

(** ** The Parameter Resolver *)

(** An argument of [draw_values]: one item, a list of items, [None] or a
    fixed state. *)
Inductive darg : Type :=
| DItem (item : view)
| DList (items : list view)
| DNone
| DPoint (p : point).

Definition point_arg (p : option point) : darg :=
  match p with
  | Some p => DPoint p
  | None => DNone
  end.

(** [np.atleast_1d(params)], iterated: the items of a list, the elements of
    an array, or the single item. *)
Definition atleast_1d (params : darg) : list view :=
  match params with
  | DList items => items
  | DItem item =>
      match v_val item with
      | VVal (Num (Vec l)) => map (fun x => plain (VVal (Num (Scalar x)))) l
      | _ => [item]
      end
  | DNone => [plain VNone]
  | DPoint p => [plain (VDict ((fun t => VVal (Num t)) <$> p))]
  end.

Definition scalar_of (v : pyval) : option num :=
  match v with
  | VVal (Num (Scalar x)) => Some x
  | VVal (Num (Vec [x])) => Some x
  | _ => None
  end.

(** [np.squeeze] of a list of results: dimensions of length one are removed.
    Scalars make a scalar or a one-dimensional array; otherwise the rows are
    kept as they are. *)
Definition squeeze (l : list pyval) : pyval :=
  match mapM scalar_of l with
  | Some [x] => VVal (Num (Scalar x))
  | Some xs => VVal (Num (Vec xs))
  | None =>
      match l with
      | [v] => v
      | _ => VList l
      end
  end.

(** The truth value of a number or an array. *)
Definition truth (t : tensor num) : res bool :=
  match t with
  | Scalar x => Ok (truthy x)
  | Vec [] => Ok false
  | Vec [x] => Ok (truthy x)
  | Vec _ =>
      Raise (ValueError
        "The truth value of an array with more than one element is ambiguous")
  end.

(** One item of the comprehension of [draw_values]. *)
Definition draw_item (point : darg) (item : view) : M pyval :=
  match v_random item with
  | None => mret (v_val item)
  | Some random =>
      match point with
      | DNone => v ← random None; mret (VVal v)
      | DPoint p =>
          name ← liftM (name_of item);
          match name ≫= (p !!.) with
          | Some t =>
              b ← liftM (truth t);
              if b : bool then mret (VVal (Num t))
              else v ← random (Some p); mret (VVal v)
          | None => v ← random (Some p); mret (VVal v)
          end
      | _ => liftM (Raise (AttributeError "get"))
      end
  end.

Fixpoint for_each {A B} (f : A -> M B) (l : list A) : M (list B) :=
  match l with
  | [] => mret []
  | a :: l' => b ← f a; bs ← for_each f l'; mret (b :: bs)
  end.

Definition draw_values (params point : darg) : M pyval :=
  rs ← for_each (draw_item point) (atleast_1d params);
  mret (squeeze rs).

(** A call of [draw_values] on positional arguments: the lambda takes
    [params] and an optional [point]. *)
Definition call_draw_values (args : list darg) : M pyval :=
  match args with
  | [params] => draw_values params DNone
  | [params; point] => draw_values params point
  | _ => liftM (Raise (TypeError
           "<lambda>() takes from 1 to 2 positional arguments"))
  end.

(** The targets of an unpacking assignment [a, b = v]. *)
Definition unpack (n : nat) (v : pyval) : res (list pyval) :=
  match v with
  | VVal (Num (Vec xs)) =>
      if decide (length xs = n)
      then Ok (map (fun x => VVal (Num (Scalar x))) xs)
      else Raise (ValueError "wrong number of values to unpack")
  | VList l =>
      if decide (length l = n) then Ok l
      else Raise (ValueError "wrong number of values to unpack")
  | _ => Raise (TypeError "iteration over a 0-d array")
  end.

Definition unpack2 (v : pyval) : res (pyval * pyval) :=
  l ← unpack 2 v;
  match l with
  | [a; b] => Ok (a, b)
  | _ => Raise (ValueError "wrong number of values to unpack")
  end.

Definition unpack3 (v : pyval) : res (pyval * pyval * pyval) :=
  l ← unpack 3 v;
  match l with
  | [a; b; c] => Ok (a, b, c)
  | _ => Raise (ValueError "wrong number of values to unpack")
  end.

(** Modelled from the spec: the name [size], which the module does not
    define (the specification calls the size variable undefined); the star
    import of the absent [dist_math] is taken not to bind it. *)
Definition global_size : res pyval := Raise (NameError "size").

(** ** Log-densities and samplers *)

(** The primitives the module takes from outside: the log-gamma function,
    a trusted numeric primitive applied elementwise, the generators of
    [numpy.random] and the quantile function of [scipy.stats.beta]. *)
Class externals : Type := {
  lgamma : num -> num;
  np_random : pyval -> M numeric;
  runiform : pyval -> pyval -> pyval -> M numeric;
  rnormal : pyval -> pyval -> pyval -> M numeric;
  rexponential : pyval -> pyval -> M numeric;
  rlognormal : pyval -> pyval -> pyval -> M numeric;
  rchi2 : pyval -> pyval -> M numeric;
  rgamma : pyval -> pyval -> pyval -> M numeric;
  sbeta_ppf : numeric -> pyval -> pyval -> M numeric
}.

Section Methods.

Context {ext : externals}.

Definition gammaln (x : res numeric) : res numeric := lift1 lgamma x.

Definition Uniform_logp (self : gmap string view) (value : numeric)
  : res numeric :=
  lower ← numattr self "lower";
  upper ← numattr self "upper";
  bound (- log (upper - lower))%py
    [(lower <= value)%py; (value <= upper)%py].

Definition Uniform_random (self : gmap string view) (point : option point)
  : M numeric :=
  upper ← liftM (attr self "upper");
  lower ← liftM (attr self "lower");
  r ← call_draw_values [DList [upper; lower]; point_arg point];
  '(upper, lower) ← liftM (unpack2 r);
  shape ← liftM (attr self "shape");
  runiform upper lower (v_val shape).

Definition Flat_logp (self : gmap string view) (value : numeric)
  : res numeric :=
  zeros_like value.

Definition Flat_random (self : gmap string view) (point : option point)
  : M numeric :=
  liftM (Raise (NotImplementedError "Cannot sample from Flat.")).

Definition Normal_logp (self : gmap string view) (value : numeric)
  : res numeric :=
  tau ← numattr self "tau";
  mu ← numattr self "mu";
  bound ((- tau * (value - mu) ** 2 + log (tau / pi / lit 2)) / lit 2)%py
    [(tau > lit 0)%py].

Definition Normal_random (self : gmap string view) (point : option point)
  : M numeric :=
  mu ← liftM (attr self "mu");
  tau ← liftM (attr self "tau");
  r ← call_draw_values [DList [mu; tau]; point_arg point];
  '(mu, tau) ← liftM (unpack2 r);
  scale ← liftM (sqrt (num_of tau));
  shape ← liftM (attr self "shape");
  rnormal mu (VVal scale) (v_val shape).

Definition Beta_logp (self : gmap string view) (value : numeric)
  : res numeric :=
  alpha ← numattr self "alpha";
  beta ← numattr self "beta";
  bound (gammaln (alpha + beta) - gammaln alpha - gammaln beta
         + logpow value (alpha - lit 1)
         + logpow (lit 1 - value) (beta - lit 1))%py
    [(lit 0 <= value)%py; (value <= lit 1)%py;
     (alpha > lit 0)%py;
     (beta > lit 0)%py].

Definition Beta_random (self : gmap string view) (point : option point)
  : M numeric :=
  alpha ← liftM (attr self "alpha");
  beta ← liftM (attr self "beta");
  r ← call_draw_values [DList [alpha; beta]; point_arg point];
  '(alpha, beta) ← liftM (unpack2 r);
  shape ← liftM (attr self "shape");
  q ← np_random (v_val shape);
  sbeta_ppf q alpha beta.

Definition Exponential_logp (self : gmap string view) (value : numeric)
  : res numeric :=
  lam ← numattr self "lam";
  bound (log lam - lam * value)%py
    [(value > lit 0)%py;
     (lam > lit 0)%py].

Definition Exponential_random (self : gmap string view)
    (point : option point) : M numeric :=
  lam ← liftM (attr self "lam");
  lam ← call_draw_values [DItem lam; point_arg point];
  scale ← liftM (lit 1 / num_of lam)%py;
  shape ← liftM (attr self "shape");
  rexponential (VVal scale) (v_val shape).

Definition Laplace_logp (self : gmap string view) (value : numeric)
  : res numeric :=
  mu ← numattr self "mu";
  b ← numattr self "b";
  (- log (lit 2 * b) - abs (value - mu) / b)%py.

Definition Laplace_random (self : gmap string view) (point : option point)
  : M numeric :=
  mu ← liftM (attr self "mu");
  b ← liftM (attr self "b");
  r ← call_draw_values [DList [mu; b]; point_arg point];
  '(mu, b) ← liftM (unpack2 r);
  size ← liftM global_size;
  u ← runiform (number (-0.5)) (number 0.5) size;
  liftM (num_of mu - sign u * log (lit 1 - lit 2 * abs u) / num_of b)%py.

Definition Lognormal_logp (self : gmap string view) (value : numeric)
  : res numeric :=
  mu ← numattr self "mu";
  tau ← numattr self "tau";
  bound (lit (-0.5) * tau * (log value - mu) ** 2
         + lit 0.5 * log (tau / (lit 2 * pi)) - log value)%py
    [(tau > lit 0)%py].

Definition Lognormal_random (self : gmap string view)
    (point : option point) : M numeric :=
  mu ← liftM (attr self "mu");
  tau ← liftM (attr self "tau");
  r ← call_draw_values [DList [mu; tau]; point_arg point];
  '(mu, tau) ← liftM (unpack2 r);
  sigma ← liftM (sqrt (lit 1 / num_of tau)%py);
  shape ← liftM (attr self "shape");
  rlognormal mu (VVal sigma) (v_val shape).

Definition T_logp (self : gmap string view) (value : numeric)
  : res numeric :=
  nu ← numattr self "nu";
  mu ← numattr self "mu";
  lam ← numattr self "lam";
  bound (gammaln ((nu + lit 1) / lit 2) + lit 0.5 * log (lam / (nu * pi))
         - gammaln (nu / lit 2)
         - (nu + lit 1) / lit 2
           * log (lit 1 + lam * (value - mu) ** 2 / nu))%py
    [(lam > lit 0)%py;
     (nu > lit 0)%py].

Definition T_random (self : gmap string view) (point : option point)
  : M numeric :=
  mu ← liftM (attr self "mu");
  nu ← liftM (attr self "nu");
  tau ← liftM (attr self "tau");
  r ← call_draw_values [DList [mu; nu; tau]; point_arg point];
  '(mu, nu, tau) ← liftM (unpack3 r);
  scale ← liftM (lit 1 / sqrt (num_of tau))%py;
  size ← liftM global_size;
  z ← rnormal mu (VVal scale) size;
  shape ← liftM (attr self "shape");
  c ← rchi2 nu (v_val shape);
  liftM (z / sqrt (c / num_of nu))%py.

Definition Cauchy_logp (self : gmap string view) (value : numeric)
  : res numeric :=
  alpha ← numattr self "alpha";
  beta ← numattr self "beta";
  bound (- log pi - log beta
         - log (lit 1 + ((value - alpha) / beta) ** 2))%py
    [(beta > lit 0)%py].

Definition Cauchy_random (self : gmap string view) (point : option point)
  : M numeric :=
  alpha ← liftM (attr self "alpha");
  beta ← liftM (attr self "beta");
  r ← call_draw_values [DList [alpha; beta]; point_arg point];
  '(alpha, beta) ← liftM (unpack2 r);
  shape ← liftM (attr self "shape");
  u ← np_random (v_val shape);
  liftM (num_of alpha
         + num_of beta * tan (pi * u - pi / lit 2))%py.

Definition Gamma_logp (self : gmap string view) (value : numeric)
  : res numeric :=
  alpha ← numattr self "alpha";
  beta ← numattr self "beta";
  bound (- gammaln alpha + logpow beta alpha - beta * value
         + logpow value (alpha - lit 1))%py
    [(value >= lit 0)%py;
     (alpha > lit 0)%py;
     (beta > lit 0)%py].

Definition Gamma_random (self : gmap string view) (point : option point)
  : M numeric :=
  alpha ← liftM (attr self "alpha");
  beta ← liftM (attr self "beta");
  r ← call_draw_values [DItem alpha; DItem beta; point_arg point];
  '(alpha, beta) ← liftM (unpack2 r);
  scale ← liftM (lit 1 / num_of beta)%py;
  shape ← liftM (attr self "shape");
  rgamma alpha (VVal scale) (v_val shape).

(** [self.dist.logp(value)] goes through the bound method of the inner
    instance. *)
Definition Bounded_logp (self : gmap string view) (value : numeric)
  : res numeric :=
  dist ← attr self "dist";
  inner ← match v_logp dist with
          | Some logp => logp value
          | None => Raise (AttributeError "logp")
          end;
  lower ← numattr self "lower";
  upper ← numattr self "upper";
  bound inner [(lower <= value)%py; (value <= upper)%py].

Definition class_logp (c : cls) : gmap string view -> numeric -> res numeric :=
  match c with
  | Uniform => Uniform_logp
  | Flat => Flat_logp
  | Normal => Normal_logp
  | Beta => Beta_logp
  | Exponential => Exponential_logp
  | Laplace => Laplace_logp
  | Lognormal => Lognormal_logp
  | T => T_logp
  | Cauchy => Cauchy_logp
  | Gamma => Gamma_logp
  | Bounded => Bounded_logp
  end.

(** The class [Bounded] defines no sampler of its own. *)
Definition class_random (c : cls)
  : option (gmap string view -> option point -> M numeric) :=
  match c with
  | Uniform => Some Uniform_random
  | Flat => Some Flat_random
  | Normal => Some Normal_random
  | Beta => Some Beta_random
  | Exponential => Some Exponential_random
  | Laplace => Some Laplace_random
  | Lognormal => Some Lognormal_random
  | T => Some T_random
  | Cauchy => Some Cauchy_random
  | Gamma => Some Gamma_random
  | Bounded => None
  end.

(** Method resolution: an instance gets the methods of its class, bound
    to its own attributes; a stochastic reference brings its sampler. *)
Fixpoint methods (v : pyval) : view :=
  match v with
  | VObj c d =>
      let self := methods <$> d in
      View v (Some (class_logp c self))
             ((fun m => m self) <$> class_random c)
  | VRef name random => reference name random
  | _ => plain v
  end.

(** [o.logp(value)] *)
Definition logp (o : pyval) (value : numeric) : res numeric :=
  match v_logp (methods o) with
  | Some m => m value
  | None => Raise (AttributeError "logp")
  end.

(** [o.random(point)] *)
Definition random (o : pyval) (point : option point) : M numeric :=
  match v_random (methods o) with
  | Some m => m point
  | None => liftM (Raise (AttributeError "random"))
  end.

(** The log-density at the scalar [x] of the instance of class [c] built
    from the positional arguments [args]. *)
Definition density (c : cls) (args : list pyval) (x : num) : res numeric :=
  (o ← dist (VCls c) args ∅; logp o (Num (Scalar x)))%py.

Definition guarded (ok : bool) (x : num) : res numeric :=
  Ok (Num (Scalar (if ok then x else NInf))).

(** A draw from the instance of class [c] built from the positional
    arguments [args]. *)
Definition sample (c : cls) (args : list pyval) (point : option point)
  : M numeric :=
  (o ← liftM (dist (VCls c) args ∅); random o point)%run.

End Methods.

(** A scalar as a Python value. *)
Definition scalar (x : num) : pyval := VVal (Num (Scalar x)).

(** The attribute [a] of an instance that a construction returned. *)
Definition attribute (o : res pyval) (a : string) : res pyval :=
  (o ← o; d ← dict_of o; getattr d a)%py.

(** A sampler that always draws [v] and advances the generator. *)
Definition constant_sampler (v : num) : option point -> M numeric :=
  fun _ s => (Ok (Num (Scalar v)), S s).

(** [Bound(Exponential, lower=1)('x', lam=1)] *)
Definition truncated_exponential : res (pyval * pyval) :=
  (b ← Bound_init [VCls Exponential] {[ "lower" := number 1 ]};
   Bound_call b [VStr "x"] {[ "lam" := number 1 ]})%py.

(** [Bound(Uniform, 0.2, 0.8)('x', 0, 1)] *)
Definition truncated_uniform : res (pyval * pyval) :=
  Bound_call (mkBound (VCls Uniform) (number 0.2) (number 0.8))
    [VStr "x"; number 0; number 1] ∅.

(** The primitives when neither a special-function library nor a generator
    is at hand: the log-gamma function is undefined and every generator
    raises.  They serve to evaluate the model at concrete inputs that do not
    depend on them. *)
Definition unavailable {A} : M A :=
  liftM (Raise (NotImplementedError "unavailable")).

Definition offline : externals := {|
  lgamma := fun _ => NaN;
  np_random := fun _ => unavailable;
  runiform := fun _ _ _ => unavailable;
  rnormal := fun _ _ _ => unavailable;
  rexponential := fun _ _ => unavailable;
  rlognormal := fun _ _ _ => unavailable;
  rchi2 := fun _ _ => unavailable;
  rgamma := fun _ _ _ => unavailable;
  sbeta_ppf := fun _ _ _ => unavailable
|}.

(** The names local to [Bounded.__init__], which its second update writes
    over the attributes copied from the inner instance. *)
Definition shadowed : list string :=
  ["self"; "distribution"; "lower"; "upper"; "args"; "kwargs"].

(** The [__dict__] that [Bounded.__init__] leaves: the attribute [dist],
    under the attributes of the inner instance, under the local names. *)
Definition bounded_dict (c : cls) (inner : gmap string pyval)
    (lower upper : pyval) (args : list pyval) (kwargs : gmap string pyval)
  : gmap string pyval :=
  update (update (setattr ∅ "dist" (VObj c inner)) inner)
    {[ "self" := VSelf; "distribution" := VCls c;
       "lower" := lower; "upper" := upper;
       "args" := VList args; "kwargs" := VDict kwargs ]}.

Section TruncatedDensity.
Context {ext : externals}.

(** The log-density at the scalar [x] of the instance that the template
    builds from the positional arguments [args], under the name ['x']. *)
Definition truncated_density (template : Bound) (args : list pyval) (x : num)
  : res numeric :=
  ('(_, o) ← Bound_call template (VStr "x" :: args) ∅;
   logp o (Num (Scalar x)))%py.

End TruncatedDensity.

(** The primitives with a uniform generator that draws 0.5 and advances;
    the others are as in [offline]. *)
Definition midpoint : externals := {|
  lgamma := fun _ => NaN;
  np_random := fun _ s => (Ok (Num (Scalar (Fin 0.5))), S s);
  runiform := fun _ _ _ => unavailable;
  rnormal := fun _ _ _ => unavailable;
  rexponential := fun _ _ => unavailable;
  rlognormal := fun _ _ _ => unavailable;
  rchi2 := fun _ _ => unavailable;
  rgamma := fun _ _ _ => unavailable;
  sbeta_ppf := fun _ _ _ => unavailable
|}.

(** ** Proof tools *)

(** Decides the comparisons of real constants left in a goal. *)
Ltac rcmp :=
  repeat match goal with
  | |- context [Rcompare ?a ?b] =>
      let H := fresh in
      destruct (Rcompare_spec a b) as [H|H|H]; try (exfalso; lra); simpl
  end.

Ltac num_eval :=
  cbv [Num.pow Num.div Num.mul Num.add Num.sub Num.opp Num.abs Num.log
       Num.exp Num.maximum Num.leb Num.ltb Num.geb Num.gtb Num.eqb
       Num.truthy Num.sgn Num.sgn_mul Num.inf_of Pos.iter_op negb];
  rcmp; try reflexivity; try (repeat f_equal; lra).

(** One step through a construction that succeeded. *)
Ltac step :=
  match goal with
  | H : and_then ?m _ = Ok _ |- _ =>
      let E := fresh "E" in destruct m eqn:E; simpl in H; [|discriminate H]
  | H : Ok _ = Ok _ |- _ => injection H as <-
  | H : match ?x with _ => _ end = Ok _ |- _ =>
      destruct x; try discriminate H
  end.
(** ** Elementwise reading of the selector *)

Lemma tmap2_fits {A B C} (f : A -> B -> C) n (s : tensor A) (t : tensor B) :
  fits n s -> fits n t ->
  exists r, tmap2 f s t = Some r /\ fits n r /\
    forall i a b, tget s i = Some a -> tget t i = Some b ->
                  i < n -> tget r i = Some (f a b).
Proof.
  destruct s as [a|l1], t as [b|l2]; simpl; intros Hs Ht.
  - eexists; split; [reflexivity|]. split; [exact I|].
    intros i a' b' [= <-] [= <-] _. reflexivity.
  - eexists; split; [reflexivity|]. split; [by simpl; rewrite length_map|].
    intros i a' b' [= <-] Hb _. simpl.
    change (map ?g ?l) with (g <$> l). by rewrite list_lookup_fmap, Hb.
  - eexists; split; [reflexivity|]. split; [by simpl; rewrite length_map|].
    intros i a' b' Ha [= <-] _. simpl.
    change (map ?g ?l) with (g <$> l). by rewrite list_lookup_fmap, Ha.
  - rewrite decide_True by congruence.
    eexists; split; [reflexivity|]. split.
    + simpl. rewrite length_zip_with. lia.
    + intros i a b Ha Hb _. simpl.
      by rewrite lookup_zip_with, Ha; simpl; rewrite Hb.
Qed.

Lemma fits_lookup {A} n (t : tensor A) i :
  fits n t -> i < n -> is_Some (tget t i).
Proof.
  destruct t as [a|l]; simpl; intros Hf Hi; [by eexists|].
  apply lookup_lt_is_Some. lia.
Qed.

Lemma alltrue_fits n (cts : list (tensor bool)) (acc : tensor bool) :
  fits n acc -> Forall (fits n) cts ->
  exists r, fold_left cand (map (fun c => Ok (Cond c)) cts) (Ok (Cond acc))
              = Ok (Cond r) /\ fits n r /\
    forall i b, i < n -> tget acc i = Some b ->
                tget r i = Some (b && all_hold cts i).
Proof.
  revert acc. induction cts as [|c cts IH]; intros acc Hacc Hall; simpl.
  - exists acc. split; [reflexivity|]. split; [assumption|].
    intros i b _ Hb. by rewrite andb_true_r.
  - inversion Hall as [|? ? Hc Hcts]; subst.
    destruct (tmap2_fits andb n acc c Hacc Hc) as (r & Hr & Hfr & Hget).
    rewrite Hr.
    destruct (IH r Hfr Hcts) as (r' & Hr' & Hfr' & Hget').
    exists r'. split; [assumption|]. split; [assumption|].
    intros i b Hi Hb.
    destruct (fits_lookup n c i Hc Hi) as [bc Hbc].
    rewrite (Hget' i (b && bc)) by (auto using Hget).
    unfold all_hold; simpl; fold (all_hold cts i). rewrite Hbc.
    f_equal. destruct b, bc; simpl; try reflexivity.
Qed.

Lemma bound_no_constraint (expr : res numeric) : bound expr [] = expr.
Proof.
  destruct expr as [[[x|l]|]|e]; simpl; try reflexivity.
  by rewrite map_id.
Qed.

Lemma bound_elementwise n (et : tensor num) (cts : list (tensor bool)) :
  fits n et -> Forall (fits n) cts ->
  exists r, bound (Ok (Num et)) (map (fun c => Ok (Cond c)) cts) = Ok (Num r)
    /\ fits n r
    /\ forall i x, i < n -> tget et i = Some x ->
         tget r i = Some (if all_hold cts i then x else NInf).
Proof.
  intros Het Hcts. unfold bound, alltrue.
  destruct (alltrue_fits n cts (Scalar true) I Hcts) as (c & Hc & Hfc & Hget).
  rewrite Hc.
  destruct (tmap2_fits (fun (c : bool) (x : num) => if c then x else NInf)
              n c et Hfc Het) as (r & Hr & Hfr & Hgr).
  rewrite Hr. exists r. split; [reflexivity|]. split; [assumption|].
  intros i x Hi Hx.
  apply (Hgr i (all_hold cts i) x); auto.
  by rewrite (Hget i true Hi eq_refl).
Qed.

(** C2.  [bound(expr, *constraints)] returns, at every index of the common
    shape, [expr] where all the constraints hold and negative infinity where
    one fails; without constraints it returns [expr] unchanged.  So
    [bound(5.0)] is [5.0] and [bound(5.0, array([True, False]))] is
    [[5.0, -inf]]. *)
Theorem bound_selects n (et : tensor num) (cts : list (tensor bool)) :
  fits n et -> Forall (fits n) cts ->
  (forall expr, bound expr [] = expr)
  /\ (exists r,
        bound (Ok (Num et)) (map (fun c => Ok (Cond c)) cts) = Ok (Num r)
        /\ fits n r
        /\ forall i x, i < n -> tget et i = Some x ->
             tget r i = Some (if all_hold cts i then x else NInf))
  /\ bound (lit 5) [] = lit 5
  /\ bound (lit 5) [Ok (Cond (Vec [true; false]))]
     = Ok (Num (Vec [Fin 5; NInf])).
Proof.
  intros Het Hcts. split; [exact bound_no_constraint|].
  split; [by apply bound_elementwise|].
  split; reflexivity.
Qed.

(** The scalar [5.0] against the constraint [[True, False]]. *)
Lemma bound_selects_witness :
  exists r,
    bound (lit 5) [Ok (Cond (Vec [true; false]))] = Ok (Num r)
    /\ tget r 0 = Some (Fin 5) /\ tget r 1 = Some NInf.
Proof.
  destruct (bound_selects 2 (Scalar (Fin 5)) [Vec [true; false]])
    as (_ & (r & Hr & _ & Hget) & _).
  - exact I.
  - repeat constructor.
  - exists r. split; [exact Hr|]. split.
    + apply (Hget 0 (Fin 5)); [lia | reflexivity].
    + apply (Hget 1 (Fin 5)); [lia | reflexivity].
Defined.

(** ** Evaluating numbers *)

Lemma maximum_clamps (q : num) :
  Num.maximum q (Fin 0) = if Num.ltb q (Fin 0) then Fin 0 else q.
Proof. destruct q; reflexivity. Qed.

Lemma pow_minus_two (x : num) :
  Num.pow x (-2) = Num.div (Fin 1) (Num.mul x x).
Proof. reflexivity. Qed.

(** ** Parameterizations of the precision *)

(** C6.  [get_tau(tau, sd)] is 1 when neither is supplied, [sd ** -2] when
    only [sd] is and [sd] is not zero (at zero the power raises
    [ZeroDivisionError]), [tau] when only [tau] is, and raises the conflict
    error exactly when both are.  [Normal] with both raises it; [Normal]
    with [sd=2] alone has [tau = 0.25]. *)
Theorem get_tau_resolution :
  get_tau VNone VNone = Ok (number 1)
  /\ (forall sd : num,
        sd <> Fin 0 ->
        get_tau VNone (scalar sd)
        = Ok (scalar (Num.div (Fin 1) (Num.mul sd sd))))
  /\ (forall tau : pyval,
        get_tau tau VNone
        = Ok (match tau with VNone => number 1 | _ => tau end))
  /\ (forall tau sd : pyval,
        get_tau tau sd = Raise conflict <-> tau <> VNone /\ sd <> VNone)
  /\ dist (VCls Normal) [] {[ "tau" := number 1; "sd" := number 1 ]}
     = Raise conflict
  /\ attribute (dist (VCls Normal) [] {[ "sd" := number 2 ]}) "tau"
     = Ok (number 0.25).
Proof.
  split; [reflexivity|]. split; [by intros sd _|].
  split; [by intros []|]. split.
  - intros tau sd. split.
    + intros H. split; intros ->.
      * destruct sd as [|[[?|?]|]| | | | | | |]; discriminate H.
      * destruct tau; discriminate H.
    + intros [Ht Hs].
      destruct tau; try congruence; destruct sd; try congruence; reflexivity.
  - split; [reflexivity|].
    change (Ok (scalar (Num.pow (Fin 2) (-2))) = Ok (number 0.25)).
    unfold number, scalar. do 4 f_equal. num_eval.
Qed.

(** [get_tau(sd=2)] *)
Lemma get_tau_resolution_witness :
  get_tau VNone (scalar (Fin 2))
  = Ok (scalar (Num.div (Fin 1) (Num.mul (Fin 2) (Fin 2)))).
Proof.
  apply (proj1 (proj2 get_tau_resolution) (Fin 2)).
  intros E. injection E. lra.
Defined.

(** ** The improper flat prior *)

Section Sampling.

Context {ext : externals}.

(** C7.  The sampler of a [Flat] instance raises the unsupported-operation
    error whatever the fixed state, and returns no value. *)
Theorem Flat_random_raises (d : gmap string pyval) (point : option point)
    (s : rng) :
  random (VObj Flat d) point s
  = (Raise (NotImplementedError "Cannot sample from Flat."), s).
Proof. reflexivity. Qed.

End Sampling.

(** ** Summary statistics of Gamma *)

(** C9.  For [beta] other than zero (at zero the constructor raises
    [ZeroDivisionError] on its first division), the median stored by
    [Gamma(alpha, beta)] is the maximum of [(alpha - 1) / beta] and 0: it is
    0 whenever the quotient is negative, as for [alpha = 0.5], [beta = 1]. *)
Theorem Gamma_median_clamped (alpha beta : num) :
  beta <> Fin 0 ->
  let q := Num.div (Num.sub alpha (Fin 1)) beta in
  attribute (dist (VCls Gamma) [scalar alpha; scalar beta] ∅) "median"
  = Ok (scalar (Num.maximum q (Fin 0)))
  /\ Num.maximum q (Fin 0) = (if Num.ltb q (Fin 0) then Fin 0 else q)
  /\ attribute (dist (VCls Gamma) [number 0.5; number 1] ∅) "median"
     = Ok (number 0).
Proof.
  intros _ q.
  split; [reflexivity|]. split; [apply maximum_clamps|].
  change (Ok (scalar (Num.maximum
            (Num.div (Num.sub (Fin 0.5) (Fin 1)) (Fin 1)) (Fin 0)))
          = Ok (number 0)).
  unfold number, scalar. do 4 f_equal. num_eval.
Qed.

(** [Gamma(alpha=0.5, beta=1)] *)
Lemma Gamma_median_clamped_witness :
  attribute (dist (VCls Gamma) [scalar (Fin 0.5); scalar (Fin 1)] ∅) "median"
  = Ok (scalar (Num.maximum (Num.div (Num.sub (Fin 0.5) (Fin 1)) (Fin 1))
                  (Fin 0)))
  /\ attribute (dist (VCls Gamma) [number 0.5; number 1] ∅) "median"
     = Ok (number 0).
Proof.
  assert (H : Fin 1 <> Fin 0) by (intros E; injection E; lra).
  destruct (Gamma_median_clamped (Fin 0.5) (Fin 1) H) as (Hm & _ & Hz).
  split; assumption.
Defined.

(** ** Log-densities of instances with scalar parameters *)

Section Densities.

Context {ext : externals}.

Lemma Uniform_density (lower upper x : num) :
  density Uniform [scalar lower; scalar upper] x
  = guarded (Num.leb lower x && Num.leb x upper)
      (Num.opp (Num.log (Num.sub upper lower))).
Proof. reflexivity. Qed.

Lemma Flat_density (x : num) :
  density Flat [] x = Ok (Num (Scalar (Fin 0))).
Proof. reflexivity. Qed.


Lemma Beta_density (alpha beta x : num) :
  density Beta [scalar alpha; scalar beta] x
  = guarded (Num.leb (Fin 0) x && Num.leb x (Fin 1)
             && Num.gtb alpha (Fin 0) && Num.gtb beta (Fin 0))
      (Num.add
         (Num.add
            (Num.sub
               (Num.sub (lgamma (Num.add alpha beta)) (lgamma alpha))
               (lgamma beta))
            (Num.mul (Num.sub alpha (Fin 1)) (Num.log x)))
         (Num.mul (Num.sub beta (Fin 1)) (Num.log (Num.sub (Fin 1) x)))).
Proof. reflexivity. Qed.

Lemma Exponential_density (lam x : num) :
  density Exponential [scalar lam] x
  = guarded (Num.gtb x (Fin 0) && Num.gtb lam (Fin 0))
      (Num.sub (Num.log lam) (Num.mul lam x)).
Proof. reflexivity. Qed.


Lemma Lognormal_density (mu tau x : num) :
  density Lognormal [scalar mu; scalar tau] x
  = guarded (Num.gtb tau (Fin 0))
      (Num.sub
         (Num.add
            (Num.mul (Num.mul (Fin (-0.5)) tau)
                     (Num.pow (Num.sub (Num.log x) mu) 2))
            (Num.mul (Fin 0.5)
                     (Num.log (Num.div tau (Num.mul (Fin 2) Num.pi)))))
         (Num.log x)).
Proof. reflexivity. Qed.

Lemma T_density (nu mu lam x : num) :
  density T [scalar nu; scalar mu; scalar lam] x
  = guarded (Num.gtb lam (Fin 0) && Num.gtb nu (Fin 0))
      (Num.sub
         (Num.sub
            (Num.add
               (lgamma (Num.div (Num.add nu (Fin 1)) (Fin 2)))
               (Num.mul (Fin 0.5)
                        (Num.log (Num.div lam (Num.mul nu Num.pi)))))
            (lgamma (Num.div nu (Fin 2))))
         (Num.mul
            (Num.div (Num.add nu (Fin 1)) (Fin 2))
            (Num.log
               (Num.add (Fin 1)
                  (Num.div (Num.mul lam (Num.pow (Num.sub x mu) 2)) nu))))).
Proof. reflexivity. Qed.


Lemma Gamma_density (alpha beta x : num) :
  density Gamma [scalar alpha; scalar beta] x
  = guarded (Num.geb x (Fin 0) && Num.gtb alpha (Fin 0)
             && Num.gtb beta (Fin 0))
      (Num.add
         (Num.sub
            (Num.add (Num.opp (lgamma alpha))
                     (Num.mul alpha (Num.log beta)))
            (Num.mul beta x))
         (Num.mul (Num.sub alpha (Fin 1)) (Num.log x))).
Proof. reflexivity. Qed.

(** ** Values outside the support *)

Lemma Uniform_outside (lower upper x : num) :
  Num.leb lower x && Num.leb x upper = false ->
  density Uniform [scalar lower; scalar upper] x = Ok (Num (Scalar NInf)).
Proof. intros H. rewrite Uniform_density, H. reflexivity. Qed.

Lemma Beta_outside (alpha beta x : num) :
  Num.leb (Fin 0) x && Num.leb x (Fin 1) = false ->
  density Beta [scalar alpha; scalar beta] x = Ok (Num (Scalar NInf)).
Proof. intros H. rewrite Beta_density, H. reflexivity. Qed.

Lemma Exponential_outside (lam x : num) :
  Num.gtb x (Fin 0) = false ->
  density Exponential [scalar lam] x = Ok (Num (Scalar NInf)).
Proof. intros H. rewrite Exponential_density, H. reflexivity. Qed.

Lemma Gamma_outside (alpha beta x : num) :
  Num.geb x (Fin 0) = false ->
  density Gamma [scalar alpha; scalar beta] x = Ok (Num (Scalar NInf)).
Proof. intros H. rewrite Gamma_density, H. reflexivity. Qed.

(** [Uniform(lower=0, upper=1)]: the log-density is negative infinity at
    [-0.1] and at [1.1], and [-log(1) = 0] at [0.5]. *)
Lemma Uniform_unit_interval :
  density Uniform [number 0; number 1] (Fin (-0.1)) = Ok (Num (Scalar NInf))
  /\ density Uniform [number 0; number 1] (Fin 1.1) = Ok (Num (Scalar NInf))
  /\ density Uniform [number 0; number 1] (Fin 0.5) = Ok (Num (Scalar (Fin 0))).
Proof.
  split; [|split].
  - apply (Uniform_outside (Fin 0) (Fin 1)). num_eval.
  - apply (Uniform_outside (Fin 0) (Fin 1)). num_eval.
  - rewrite (Uniform_density (Fin 0) (Fin 1)). unfold guarded.
    cbv [Num.leb Num.sub Num.add Num.opp Num.log andb]. rcmp.
    do 4 f_equal. replace (1 + - 0)%R with 1%R by lra. rewrite ln_1. lra.
Qed.

(** The logarithm of a value that is not positive is NaN or negative
    infinity, and [Lognormal] has no constraint on the value: below zero
    its log-density is NaN, whatever the parameters. *)
Lemma Lognormal_below_zero (mu tau x : num) :
  Num.gtb tau (Fin 0) = true -> Num.ltb x (Fin 0) = true ->
  density Lognormal [scalar mu; scalar tau] x = Ok (Num (Scalar NaN)).
Proof.
  intros Htau Hx. rewrite Lognormal_density, Htau. unfold guarded.
  assert (Hlog : Num.log x = NaN).
  { destruct x as [| | |r]; try reflexivity; try discriminate Hx.
    revert Hx. cbv [Num.ltb Num.log]. rcmp; congruence. }
  rewrite Hlog. do 3 f_equal.
  unfold Num.sub at 1. simpl Num.opp.
  match goal with |- Num.add ?e NaN = NaN => by destruct e end.
Qed.

(** C1, at the input where it fails.  [Lognormal(mu=0, tau=1)] declares the
    support [x > 0], and its log-density at [-1.0] is NaN, not negative
    infinity: the method has no constraint on the value. *)
Theorem Lognormal_logp_outside_support :
  density Lognormal [number 0; number 1] (Fin (-1)) = Ok (Num (Scalar NaN)).
Proof. apply (Lognormal_below_zero (Fin 0) (Fin 1) (Fin (-1))); num_eval. Qed.

(** ** Invalid parameters *)

Lemma guarded_false_r (a : bool) (x : num) :
  guarded (a && false) x = Ok (Num (Scalar NInf)).
Proof. by rewrite andb_false_r. Qed.


Lemma abs_cases (x : num) :
  Num.abs x = NaN \/ Num.abs x = PInf
  \/ exists t, Num.abs x = Fin t /\ (0 <= t)%R.
Proof.
  destruct x as [| | |r]; simpl; auto.
  right; right. exists (Rabs r). split; [reflexivity | apply Rabs_pos].
Qed.


(** ** The truncated log-density *)

(** C4.  For a [Bounded] instance whose attribute [dist] is the inner
    instance and whose limits are [lower] and [upper], [logp(x)] is the
    log-density of the inner instance at [x] when [lower <= x <= upper],
    with no renormalization, and negative infinity otherwise. *)
Theorem Bounded_logp_truncates (inner : pyval) (d : gmap string pyval)
    (lo up x : num) :
  d !! "dist" = Some inner ->
  d !! "lower" = Some (scalar lo) ->
  d !! "upper" = Some (scalar up) ->
  (Num.leb lo x && Num.leb x up = true ->
   logp (VObj Bounded d) (Num (Scalar x)) = logp inner (Num (Scalar x)))
  /\ (Num.leb lo x && Num.leb x up = false ->
      forall t, logp inner (Num (Scalar x)) = Ok (Num t) ->
        logp (VObj Bounded d) (Num (Scalar x))
        = Ok (Num (tmap (fun _ => NInf) t))).
Proof.
  intros Hd Hlo Hup.
  assert (Heq : logp (VObj Bounded d) (Num (Scalar x))
                = (r ← logp inner (Num (Scalar x));
                   bound (Ok r) [Ok (Cond (Scalar (Num.leb lo x)));
                                 Ok (Cond (Scalar (Num.leb x up)))])%py).
  { unfold logp at 1. simpl. unfold Bounded_logp, numattr, attr.
    rewrite !lookup_fmap, Hd, Hlo, Hup. simpl.
    unfold logp. destruct (v_logp (methods inner)) as [m|]; [|reflexivity].
    simpl. destruct (m (Num (Scalar x))); reflexivity. }
  rewrite Heq. split.
  - intros Hin. destruct (logp inner (Num (Scalar x))) as [[[y|l]|]|e];
      simpl; try reflexivity; rewrite Hin; [reflexivity|].
    by rewrite map_id.
  - intros Hout t Ht. rewrite Ht. simpl. rewrite Hout.
    destruct t as [y|l]; reflexivity.
Qed.

End Densities.

(** ** Construction through the template *)

Lemma init_base_fuel f g c self args kwargs :
  c <> Bounded -> init f c self args kwargs = init g c self args kwargs.
Proof.
  intros Hc. unfold init.
  destruct (bind_params _ _ _) as [[[vs r] kw]|e]; simpl; [|reflexivity].
  destruct c; try congruence; reflexivity.
Qed.

Lemma dist_base n c args kwargs :
  c <> Bounded -> dist_upto n (VCls c) args kwargs = dist (VCls c) args kwargs.
Proof.
  intros Hc. unfold dist.
  destruct n, (length args + size kwargs); simpl;
    f_equal; by apply init_base_fuel.
Qed.

Lemma Continuous_init_attrs args kwargs s k :
  Continuous_init ∅ args kwargs = Ok s -> k <> "shape" -> s !! k = None.
Proof.
  unfold Continuous_init. intros H Hk. repeat step.
  unfold setattr. rewrite lookup_insert_ne by done. apply lookup_empty.
Qed.

Lemma init_base_no_dist f c args kwargs d :
  c <> Bounded -> init f c ∅ args kwargs = Ok d -> d !! "dist" = None.
Proof.
  intros Hc H. unfold init in H.
  destruct (bind_params _ _ _) as [[[vs r] kw]|e]; simpl in H; [|discriminate].
  destruct c; try congruence;
    destruct vs as [|? [|? [|? [|? ?]]]]; try discriminate H;
    cbv [Uniform_init Flat_init Normal_init Beta_init Exponential_init Laplace_init
         Lognormal_init T_init Cauchy_init Gamma_init] in H;
    repeat step;
    unfold setattr; rewrite ?lookup_insert_ne by done;
    eapply Continuous_init_attrs; eauto; done.
Qed.

Lemma dist_Bounded c lo up args kwargs :
  kwargs !! "distribution" = None -> kwargs !! "lower" = None ->
  kwargs !! "upper" = None ->
  dist (VCls Bounded) (VCls c :: lo :: up :: args) kwargs
  = (d ← Bounded_init (dist_upto (2 + length args + size kwargs)) ∅
           (VCls c) lo up args kwargs;
     Ok (VObj Bounded d))%py.
Proof.
  intros H1 H2 H3. unfold dist. cbn [length Nat.add dist_upto].
  unfold init. cbn [signature bind_params]. rewrite H1, H2, H3. reflexivity.
Qed.

Lemma locals_fresh (k : string) (a b c d e f : pyval) :
  k ∉ shadowed ->
  ({[ "self" := a; "distribution" := b; "lower" := c; "upper" := d;
      "args" := e; "kwargs" := f ]} : gmap string pyval) !! k = None.
Proof.
  unfold shadowed. rewrite !not_elem_of_cons. intros (?&?&?&?&?&?&_).
  rewrite !lookup_insert_ne by done. by rewrite lookup_singleton_ne.
Qed.

(** C5, amended.  Applying [Bound(D, lower, upper)] to a name and to
    arguments from which [D] builds an instance, the keywords not naming
    [distribution], [lower] or [upper], produces a [Bounded] instance whose
    [dist] is that instance of [D], whose limits are those of the template,
    and which holds every attribute of the inner instance whose name is not
    local to [Bounded.__init__]. *)
Theorem Bound_call_builds (c : cls) (lo up name : pyval)
    (args : list pyval) (kwargs inner : gmap string pyval) :
  c <> Bounded ->
  kwargs !! "distribution" = None -> kwargs !! "lower" = None ->
  kwargs !! "upper" = None ->
  dist (VCls c) args kwargs = Ok (VObj c inner) ->
  exists d,
    Bound_call (mkBound (VCls c) lo up) (name :: args) kwargs
    = Ok (name, VObj Bounded d)
    /\ d !! "dist" = Some (VObj c inner)
    /\ d !! "lower" = Some lo /\ d !! "upper" = Some up
    /\ forall k v, k ∉ shadowed -> inner !! k = Some v -> d !! k = Some v.
Proof.
  intros Hc H1 H2 H3 Hd.
  assert (Hnd : inner !! "dist" = None).
  { unfold dist in Hd. destruct (length args + size kwargs); simpl in Hd;
    match type of Hd with and_then ?m _ = _ => destruct m eqn:E end;
    simpl in Hd; try discriminate; injection Hd as <-;
    eapply init_base_no_dist; eauto. }
  unfold Bound_call, new. simpl distribution. simpl lower. simpl upper.
  rewrite dist_Bounded by assumption.
  unfold Bounded_init. rewrite dist_base, Hd by assumption.
  cbn [and_then].
  unfold getattr at 1, setattr at 1. rewrite lookup_insert_eq. simpl.
  set (locals := ({[ "self" := VSelf; "distribution" := VCls c;
                     "lower" := lo; "upper" := up; "args" := VList args;
                     "kwargs" := VDict kwargs ]} : gmap string pyval)).
  set (self := update (update (setattr ∅ "dist" (VObj c inner)) inner) locals).
  assert (Hself : forall k v, k ∉ shadowed -> inner !! k = Some v ->
                              self !! k = Some v).
  { intros k v Hk Hv. unfold self, update.
    rewrite lookup_union_r by (by apply locals_fresh).
    by apply lookup_union_Some_l. }
  assert (Hdist : self !! "dist" = Some (VObj c inner)).
  { unfold self, update.
    rewrite lookup_union_r by reflexivity.
    rewrite lookup_union_r by assumption.
    apply lookup_insert_eq. }
  assert (Hlo : self !! "lower" = Some lo)
    by (apply lookup_union_Some_l; reflexivity).
  assert (Hup : self !! "upper" = Some up)
    by (apply lookup_union_Some_l; reflexivity).
  unfold getattr at 1. rewrite Hdist. simpl.
  destruct (inner !! "mode") as [mode|] eqn:Hmode.
  - rewrite bool_decide_eq_true_2 by eauto. simpl.
    unfold getattr. rewrite Hmode. simpl.
    eexists. split; [reflexivity|]. unfold setattr.
    rewrite !lookup_insert_ne by done. repeat split; try assumption.
    intros k v Hk Hv. destruct (decide (k = "mode")) as [->|Hne].
    + rewrite lookup_insert_eq. congruence.
    + rewrite lookup_insert_ne by done. by apply Hself.
  - rewrite bool_decide_eq_false_2 by (by intros [? ?]).
    eexists. split; [reflexivity|]. repeat split; assumption.
Qed.

(** C5 as stated fails: in [Bound(Uniform, 0.2, 0.8)('x', 0, 1)] the inner
    instance has [lower = 0], and the attribute [lower] of the result is the
    limit [0.2], so the parameters of the inner instance are not all copied. *)
Lemma truncated_uniform_shadows :
  exists d inner,
    truncated_uniform = Ok (VStr "x", VObj Bounded d)
    /\ d !! "dist" = Some (VObj Uniform inner)
    /\ ~ (forall k v, inner !! k = Some v -> d !! k = Some v).
Proof.
  eexists. eexists. split; [reflexivity|]. split; [reflexivity|].
  intros H. specialize (H "lower" (number 0) eq_refl).
  vm_compute in H.
  injection H as H. lra.
Qed.

(** [Bound(Uniform, 0.2, 0.8)('x', lower=0, upper=1)]: the keywords meant for
    the inner instance collide with the parameters of [Bounded.__init__]. *)
Lemma truncated_uniform_keywords :
  Bound_call (mkBound (VCls Uniform) (number 0.2) (number 0.8))
    [VStr "x"] {[ "lower" := number 0; "upper" := number 1 ]}
  = Raise (TypeError "got multiple values for argument lower").
Proof. reflexivity. Qed.

(** A [Bounded] built over [Bounded]: the attribute [dist] copied from the
    inner instance replaces the inner instance itself. *)
Lemma nested_bounded_dist :
  exists d inner,
    Bound_call (mkBound (VCls Bounded) (number 0) (number 5))
      [VStr "x"; VCls Exponential; number 1; number 3; number 1] ∅
    = Ok (VStr "x", VObj Bounded d)
    /\ d !! "dist" = Some (VObj Exponential inner).
Proof. eexists. eexists. split; reflexivity. Qed.

(** The template [Bound(Exponential, 1, inf)] applied to ['x'] and [1]. *)
Lemma Bound_call_builds_witness :
  exists d,
    Bound_call (mkBound (VCls Exponential) (number 1) (scalar PInf))
      [VStr "x"; number 1] ∅ = Ok (VStr "x", VObj Bounded d)
    /\ d !! "lower" = Some (number 1) /\ d !! "upper" = Some (scalar PInf)
    /\ d !! "lam" = Some (number 1).
Proof.
  pose proof (Bound_call_builds Exponential (number 1) (scalar PInf)
                (VStr "x") [number 1] ∅ _ ltac:(discriminate)
                eq_refl eq_refl eq_refl eq_refl)
    as (d & Hd & Hdist & Hlo & Hup & Hcopy).
  exists d. repeat split; try assumption.
  apply Hcopy; [|reflexivity].
  unfold shadowed. rewrite !not_elem_of_cons.
  repeat split; try discriminate. apply not_elem_of_nil.
Defined.

(** The example of the specification: [Bound(Exponential, lower=1)]
    applied to [lam=1], inside its limits at [2.0] and outside at [0.5]. *)
Lemma Bounded_logp_truncates_witness :
  exists d inner,
    truncated_exponential = Ok (VStr "x", VObj Bounded d)
    /\ d !! "dist" = Some inner
    /\ logp (ext := offline) (VObj Bounded d) (Num (Scalar (Fin 2)))
       = logp (ext := offline) inner (Num (Scalar (Fin 2)))
    /\ logp (ext := offline) (VObj Bounded d) (Num (Scalar (Fin 0.5)))
       = Ok (Num (Scalar NInf)).
Proof.
  eexists. eexists. split; [reflexivity|]. split; [reflexivity|].
  match goal with |- logp (VObj Bounded ?d) _ = logp ?inner _ /\ _ =>
    destruct (@Bounded_logp_truncates offline inner d (Fin 1) PInf (Fin 2)
                eq_refl eq_refl eq_refl) as [Hin _];
    destruct (@Bounded_logp_truncates offline inner d (Fin 1) PInf (Fin 0.5)
                eq_refl eq_refl eq_refl) as [_ Hout]
  end.
  split.
  - apply Hin. num_eval.
  - assert (Hc : Num.leb (Fin 1) (Fin 0.5) && Num.leb (Fin 0.5) PInf = false)
      by num_eval.
    exact (Hout Hc (Scalar _) eq_refl).
Defined.

(** The log-density of [Exponential(lam=1)] at [2.0], to which the
    truncated instance above is equal there. *)
Lemma Exponential_at_two :
  density (ext := offline) Exponential [number 1] (Fin 2) = Ok (Num (Scalar (Fin (-2)))).
Proof.
  rewrite (Exponential_density (Fin 1) (Fin 2)). unfold guarded.
  cbv [Num.gtb Num.ltb Num.log Num.sub Num.add Num.opp Num.mul andb]. rcmp.
  rewrite ln_1. do 4 f_equal. lra.
Qed.


(** ** Resolution of parameters and sampling *)

Section Resolver.
Context {ext : externals}.

Lemma draw_item_concrete (point : darg) (item : view) :
  v_random item = None -> draw_item point item = mret (v_val item).
Proof. intros H. unfold draw_item. by rewrite H. Qed.

Lemma draw_item_no_point (name : string) (r : option point -> M numeric) :
  draw_item DNone (reference name r) = (v ← r None; mret (VVal v))%run.
Proof. reflexivity. Qed.

Lemma draw_item_fixed (name : string) (r : option point -> M numeric)
    (p : point) (t : tensor num) :
  p !! name = Some t -> truth t = Ok true ->
  draw_item (DPoint p) (reference name r) = mret (VVal (Num t)).
Proof.
  intros Hp Ht. unfold draw_item. simpl. unfold then_run, liftM. simpl.
  rewrite Hp, Ht. reflexivity.
Qed.

Lemma draw_item_falsy (name : string) (r : option point -> M numeric)
    (p : point) (t : tensor num) :
  p !! name = Some t -> truth t = Ok false ->
  draw_item (DPoint p) (reference name r)
  = (v ← r (Some p); mret (VVal v))%run.
Proof.
  intros Hp Ht. unfold draw_item. simpl. unfold then_run, liftM. simpl.
  rewrite Hp, Ht. reflexivity.
Qed.

Lemma draw_item_absent (name : string) (r : option point -> M numeric)
    (p : point) :
  p !! name = None ->
  draw_item (DPoint p) (reference name r)
  = (v ← r (Some p); mret (VVal v))%run.
Proof.
  intros Hp. unfold draw_item. simpl. unfold then_run, liftM. simpl.
  rewrite Hp. reflexivity.
Qed.

(** C3, at the input where it fails.  The fixed state maps the name of the
    item to [0.0]; [draw_values] does not use the mapped value: [0.0] is
    false for [or], so the sampler of the item is called with the fixed
    state, its draw [7.0] is returned and the generator has advanced. *)
Theorem draw_values_resamples_zero :
  call_draw_values
    [DItem (reference "x" (constant_sampler (Fin 7)));
     DPoint {[ "x" := Scalar (Fin 0) ]}] 0
  = (Ok (scalar (Fin 7)), 1).
Proof.
  unfold call_draw_values, draw_values. cbn [atleast_1d v_val reference for_each].
  rewrite (draw_item_falsy "x" _ _ (Scalar (Fin 0))).
  - reflexivity.
  - reflexivity.
  - unfold truth, truthy, Num.eqb.
    destruct (Rcompare_spec 0 0); try (exfalso; lra). reflexivity.
Qed.

(** C8, at inputs where it fails.  With concrete parameters the samplers
    of [Gamma], [Laplace] and [T] raise, whatever the fixed state, and
    return no draw: [Gamma.random] calls [draw_values] with three
    arguments, [Laplace.random] names the undefined [size], [T.random]
    reads the attribute [tau] that [T] never sets. *)
Theorem samplers_raise :
  (forall (alpha beta : num) point s,
     sample Gamma [scalar alpha; scalar beta] point s
     = (Raise (TypeError "<lambda>() takes from 1 to 2 positional arguments"),
        s))
  /\ (forall (mu b : num) point s,
        sample Laplace [scalar mu; scalar b] point s
        = (Raise (NameError "size"), s))
  /\ (forall (nu mu lam : num) point s,
        sample T [scalar nu; scalar mu; scalar lam] point s
        = (Raise (AttributeError "tau"), s)).
Proof. repeat split. Qed.

(** The samplers of the other variants do return a draw of their
    generator at the stored shape, for instance: *)
Lemma Uniform_sample (lower upper : num) point s :
  sample Uniform [scalar lower; scalar upper] point s
  = runiform (scalar upper) (scalar lower) (VList []) s.
Proof. reflexivity. Qed.

Lemma Exponential_sample (lam : num) point s :
  sample Exponential [scalar lam] point s
  = rexponential (scalar (Num.div (Fin 1) lam)) (VList []) s.
Proof. reflexivity. Qed.
End Resolver.

(** ** Log-densities inside and outside the support *)

Lemma leb_fails (a b : num) :
  a = NaN \/ b = NaN \/ Num.ltb b a = true -> Num.leb a b = false.
Proof.
  intros [->|[->|H]]; [reflexivity | by destruct a |].
  destruct a as [| | |r], b as [| | |r']; try reflexivity; try discriminate H.
  revert H. cbv [Num.ltb Num.leb]. rcmp; congruence.
Qed.

Lemma leb_chain (a b c : num) :
  Num.leb a b = true -> Num.leb b c = true ->
  a <> NaN /\ b <> NaN /\ c <> NaN /\ Num.ltb c a = false.
Proof.
  destruct a as [| | |ra], b as [| | |rb], c as [| | |rc];
    try discriminate; intros H1 H2; repeat split; try discriminate;
    try reflexivity.
  revert H1 H2. cbv [Num.leb Num.ltb]. rcmp; congruence.
Qed.

Section Support.
Context {ext : externals}.

(** X1. [Uniform.logp] is negative infinity at every value below [lower] or
    above [upper], and whenever the value or one of the limits is NaN. *)
Theorem Uniform_logp_outside_interval (lower upper x : num) :
  x = NaN \/ lower = NaN \/ upper = NaN
  \/ Num.ltb x lower = true \/ Num.ltb upper x = true ->
  density Uniform [scalar lower; scalar upper] x = Ok (Num (Scalar NInf)).
Proof.
  intros H. apply Uniform_outside.
  apply andb_false_iff.
  destruct H as [H|[H|[H|[H|H]]]].
  - left. apply leb_fails. auto.
  - left. apply leb_fails. auto.
  - right. apply leb_fails. auto.
  - left. apply leb_fails. auto.
  - right. apply leb_fails. auto.
Qed.

(** X2. Between finite limits [lower < upper], both ends included,
    [Uniform.logp] is the constant [-log(upper - lower)]. *)
Theorem Uniform_logp_inside_interval (lower upper x : R) :
  (lower < upper)%R -> (lower <= x <= upper)%R ->
  density Uniform [number lower; number upper] (Fin x)
  = Ok (Num (Scalar (Fin (- ln (upper - lower))))).
Proof.
  intros Hlu [Hl Hu]. rewrite (Uniform_density (Fin lower) (Fin upper)).
  unfold guarded. num_eval.
Qed.

(** X3. With equal limits [Uniform.logp] applies no constraint on the
    width of the interval: at the single point of the support it is
    [-log(0)], positive infinity. *)
Theorem Uniform_logp_degenerate (a : R) :
  density Uniform [number a; number a] (Fin a) = Ok (Num (Scalar PInf)).
Proof.
  rewrite (Uniform_density (Fin a) (Fin a)). unfold guarded. num_eval.
Qed.

(** X4. The value constraints of the positive and unit-interval variants,
    for finite positive parameters (the constructors divide by them):
    [Exponential.logp] and [Gamma.logp] are negative infinity at a value
    that is not [>= 0], NaN included, [Exponential.logp] also at 0 (its
    constraint is strict), and [Beta.logp] at a value that is not [>= 0] or
    that exceeds 1. *)
Theorem positive_support_excludes (alpha beta lam : R) (x y : num) :
  (0 < alpha)%R -> (0 < beta)%R -> (0 < lam)%R ->
  Num.geb x (Fin 0) = false -> Num.ltb (Fin 1) y = true ->
  density Exponential [number lam] x = Ok (Num (Scalar NInf))
  /\ density Exponential [number lam] (Fin 0) = Ok (Num (Scalar NInf))
  /\ density Gamma [number alpha; number beta] x = Ok (Num (Scalar NInf))
  /\ density Beta [number alpha; number beta] x = Ok (Num (Scalar NInf))
  /\ density Beta [number alpha; number beta] y = Ok (Num (Scalar NInf)).
Proof.
  intros _ _ _ Hx Hy.
  assert (Hx' : Num.gtb x (Fin 0) = false).
  { destruct x as [| | |r]; try reflexivity; try discriminate Hx.
    revert Hx. cbv [Num.geb Num.gtb Num.leb Num.ltb]. rcmp; congruence. }
  assert (Hy' : Num.leb y (Fin 1) = false) by (apply leb_fails; auto).
  repeat split.
  - by apply (Exponential_outside (Fin lam)).
  - apply (Exponential_outside (Fin lam)). num_eval.
  - by apply (Gamma_outside (Fin alpha) (Fin beta)).
  - apply (Beta_outside (Fin alpha) (Fin beta)).
    unfold Num.geb in Hx. by rewrite Hx.
  - apply (Beta_outside (Fin alpha) (Fin beta)).
    rewrite Hy'. apply andb_false_r.
Qed.

(** X5. For a finite rate [lam > 0] and a finite value [x > 0],
    [Exponential.logp] is [log(lam) - lam * x]. *)
Theorem Exponential_logp_inside (lam x : R) :
  (0 < lam)%R -> (0 < x)%R ->
  density Exponential [number lam] (Fin x)
  = Ok (Num (Scalar (Fin (ln lam - lam * x)))).
Proof.
  intros Hl Hx. rewrite (Exponential_density (Fin lam) (Fin x)).
  unfold guarded. num_eval.
Qed.







(** X9. For finite [mu], a finite precision [tau > 0] and a finite value
    [x > 0], [Lognormal.logp] is the finite number
    [-0.5 * tau * (log(x) - mu)^2 + 0.5 * log(tau / (2 pi)) - log(x)]. *)
Theorem Lognormal_logp_finite (mu tau x : R) :
  (0 < tau)%R -> (0 < x)%R ->
  density Lognormal [number mu; number tau] (Fin x)
  = Ok (Num (Scalar (Fin
      (-0.5 * tau * ((ln x - mu) * (ln x - mu))
       + 0.5 * ln (tau / (2 * PI)) - ln x)))).
Proof.
  intros Ht Hx. rewrite (Lognormal_density (Fin mu) (Fin tau) (Fin x)).
  pose proof PI_RGT_0 as Hpi.
  assert (H1 : (0 < tau / (2 * PI))%R) by (apply Rdiv_lt_0_compat; lra).
  unfold guarded, Num.pi. num_eval.
Qed.

Lemma zip_with_maps {A B C D} (f : B -> C -> D) (g : A -> B) (h : A -> C)
    (l : list A) :
  zip_with f (map g l) (map h l) = map (fun x => f (g x) (h x)) l.
Proof. induction l as [|x l IH]; simpl; [reflexivity|]. by rewrite IH. Qed.

(** X10. [Exponential.logp] works elementwise: for a rate other than
    zero (the constructor divides by it), on a one-dimensional array of
    values it returns the array of the log-densities of the elements, each
    one what the method returns for that element alone. *)
Theorem Exponential_logp_elementwise (lam : num) (l : list num) :
  lam <> Fin 0 ->
  let f := fun x : num =>
    if Num.gtb x (Fin 0) && Num.gtb lam (Fin 0)
    then Num.sub (Num.log lam) (Num.mul lam x) else NInf in
  (o ← dist (VCls Exponential) [scalar lam] ∅; logp o (Num (Vec l)))%py
  = Ok (Num (Vec (map f l)))
  /\ forall x, density Exponential [scalar lam] x = Ok (Num (Scalar (f x))).
Proof.
  intros _ f. split; [|intros x; apply Exponential_density].
  transitivity
    (match tmap2 (fun (c : bool) (x : num) => if c then x else NInf)
             (Vec (map (fun a => a && Num.gtb lam (Fin 0))
                     (map (andb true)
                        (map (fun a => Num.gtb a (Fin 0)) l))))
             (Vec (map (Num.sub (Num.log lam)) (map (Num.mul lam) l))) with
     | Some r => Ok (Num r)
     | None => Raise broadcast_error
     end); [reflexivity|].
  unfold tmap2. rewrite decide_True by (by rewrite !length_map).
  rewrite !map_map, zip_with_maps. reflexivity.
Qed.

End Support.

Lemma Exponential_logp_elementwise_witness :
  (o ← dist (VCls Exponential) [scalar (Fin 2)] ∅;
   logp (ext := offline) o (Num (Vec [Fin 1; Fin (-1)])))%py
  = Ok (Num (Vec (map (fun x : num =>
                         if Num.gtb x (Fin 0) && Num.gtb (Fin 2) (Fin 0)
                         then Num.sub (Num.log (Fin 2)) (Num.mul (Fin 2) x)
                         else NInf)
                      [Fin 1; Fin (-1)]))).
Proof.
  assert (H : Fin 2 <> Fin 0) by (intros E; injection E; lra).
  destruct (@Exponential_logp_elementwise offline (Fin 2)
              [Fin 1; Fin (-1)] H) as [Hv _].
  exact Hv.
Defined.

Lemma Uniform_logp_outside_interval_witness :
  Num.ltb (Fin 1) (Fin 2) = true
  /\ density (ext := offline) Uniform [scalar (Fin 0); scalar (Fin 1)] (Fin 2)
     = Ok (Num (Scalar NInf)).
Proof.
  assert (H : Num.ltb (Fin 1) (Fin 2) = true) by num_eval.
  split; [exact H|].
  apply (@Uniform_logp_outside_interval offline (Fin 0) (Fin 1) (Fin 2)).
  do 4 right. exact H.
Defined.

Lemma Uniform_logp_inside_interval_witness :
  density (ext := offline) Uniform [number 0; number 2] (Fin 1)
  = Ok (Num (Scalar (Fin (- ln (2 - 0))))).
Proof.
  apply (@Uniform_logp_inside_interval offline 0 2 1); lra.
Defined.

Lemma positive_support_excludes_witness :
  density (ext := offline) Exponential [number 1] (Fin (-1))
  = Ok (Num (Scalar NInf))
  /\ density (ext := offline) Beta [number 1; number 1] (Fin 2)
     = Ok (Num (Scalar NInf)).
Proof.
  assert (H1 : Num.geb (Fin (-1)) (Fin 0) = false) by num_eval.
  assert (H2 : Num.ltb (Fin 1) (Fin 2) = true) by num_eval.
  destruct (@positive_support_excludes offline 1 1 1 (Fin (-1)) (Fin 2))
    as (Ha & _ & _ & _ & Hb); try lra; try assumption.
  split; assumption.
Defined.

Lemma Exponential_logp_inside_witness :
  density (ext := offline) Exponential [number 2] (Fin 1)
  = Ok (Num (Scalar (Fin (ln 2 - 2 * 1)))).
Proof.
  apply (@Exponential_logp_inside offline 2 1); lra.
Defined.




Lemma Lognormal_logp_finite_witness :
  density (ext := offline) Lognormal [number 0; number 1] (Fin 2)
  = Ok (Num (Scalar (Fin
      (-0.5 * 1 * ((ln 2 - 0) * (ln 2 - 0))
       + 0.5 * ln (1 / (2 * PI)) - ln 2)))).
Proof.
  apply (@Lognormal_logp_finite offline 0 1 2); lra.
Defined.

(** ** Summary statistics stored by the constructors *)

(** X11. For a finite standard deviation [s] other than zero,
    [Normal(mu, sd=s)] stores [mu] as mean, median and mode, the precision
    [tau = 1 / s^2] that [get_tau] derives from the keyword, and as
    variance the reciprocal of that precision, [1 / (1 / s^2)]. *)
Theorem Normal_sd_statistics (mu : pyval) (s : R) :
  s <> 0%R ->
  let o := dist (VCls Normal) [mu] {[ "sd" := number s ]} in
  attribute o "mean" = Ok mu /\ attribute o "median" = Ok mu
  /\ attribute o "mode" = Ok mu
  /\ attribute o "tau" = Ok (number (1 / (s * s)))
  /\ attribute o "variance" = Ok (number (1 / (1 / (s * s)))).
Proof.
  intros Hs o.
  assert (Hq : (0 < s * s)%R) by nra.
  assert (Hr : (0 < 1 / (s * s))%R) by (apply Rdiv_lt_0_compat; lra).
  assert (Hd : Num.div (Fin 1) (Num.mul (Fin s) (Fin s))
               = Fin (1 / (s * s))).
  { cbv [Num.div Num.mul]. rcmp. reflexivity. }
  assert (Hv : Num.div (Fin 1) (Fin (1 / (s * s)))
               = Fin (1 / (1 / (s * s)))).
  { cbv [Num.div]. rcmp. reflexivity. }
  repeat split.
  - change (Ok (scalar (Num.div (Fin 1) (Num.mul (Fin s) (Fin s))))
            = Ok (number (1 / (s * s)))).
    by rewrite Hd.
  - change (Ok (scalar (Num.div (Fin 1)
                          (Num.div (Fin 1) (Num.mul (Fin s) (Fin s)))))
            = Ok (number (1 / (1 / (s * s))))).
    by rewrite Hd, Hv.
Qed.

Lemma Normal_sd_statistics_witness :
  attribute (dist (VCls Normal) [number 0] {[ "sd" := number 2 ]}) "tau"
  = Ok (number (1 / (2 * 2)))
  /\ attribute (dist (VCls Normal) [number 0] {[ "sd" := number 2 ]})
       "variance"
     = Ok (number (1 / (1 / (2 * 2)))).
Proof.
  destruct (Normal_sd_statistics (number 0) 2) as (_ & _ & _ & Ht & Hv);
    [lra|].
  split; assumption.
Defined.

(** X12. For finite [nu] other than 2 and finite [lam] other than 0 (the
    constructor divides by [nu - 2] and by [lam] before it selects), the
    variance that [T.__init__] stores is [(nu / (nu - 2)) / lam] when
    [nu > 2] and positive infinity when [nu < 2]. *)
Theorem T_variance_switch (nu lam : R) (mu : num) :
  nu <> 2%R -> lam <> 0%R ->
  let o := dist (VCls T) [number nu; scalar mu; number lam] ∅ in
  ((2 < nu)%R -> attribute o "variance" = Ok (number (nu / (nu - 2) / lam)))
  /\ ((nu < 2)%R -> attribute o "variance" = Ok (scalar PInf)).
Proof.
  intros Hnu Hlam o.
  assert (Hv : attribute o "variance"
    = Ok (scalar
        (if truthy (Num.mul (if Num.gtb (Fin nu) (Fin 2) then Fin 1 else Fin 0)
                      (Fin 1))
         then Num.div (Num.div (Fin nu) (Num.sub (Fin nu) (Fin 2))) (Fin lam)
         else Num.inf))) by reflexivity.
  rewrite Hv. split; intros H.
  - assert (Hg : Num.gtb (Fin nu) (Fin 2) = true) by num_eval.
    rewrite Hg.
    assert (Ht : truthy (Num.mul (Fin 1) (Fin 1)) = true) by num_eval.
    rewrite Ht. unfold number, scalar. do 4 f_equal. num_eval.
  - assert (Hg : Num.gtb (Fin nu) (Fin 2) = false) by num_eval.
    rewrite Hg.
    assert (Ht : truthy (Num.mul (Fin 0) (Fin 1)) = false) by num_eval.
    rewrite Ht. reflexivity.
Qed.

Lemma T_variance_switch_witness :
  attribute (dist (VCls T) [number 1; scalar (Fin 0); number 1] ∅) "variance"
  = Ok (scalar PInf).
Proof.
  destruct (T_variance_switch 1 1 (Fin 0)) as [_ H]; try lra.
  apply H. lra.
Defined.

(** ** Truncated instances *)

Lemma dist_base_no_dist (c : cls) (args : list pyval)
    (kwargs inner : gmap string pyval) :
  c <> Bounded -> dist (VCls c) args kwargs = Ok (VObj c inner) ->
  inner !! "dist" = None.
Proof.
  intros Hc Hd.
  unfold dist in Hd. destruct (length args + size kwargs); simpl in Hd;
    match type of Hd with and_then ?m _ = _ => destruct m eqn:E end;
    simpl in Hd; try discriminate; injection Hd as <-;
    eapply init_base_no_dist; eauto.
Qed.

Lemma bounded_dict_limits (c : cls) (inner : gmap string pyval)
    (lo up : pyval) (args : list pyval) (kwargs : gmap string pyval) :
  bounded_dict c inner lo up args kwargs !! "lower" = Some lo
  /\ bounded_dict c inner lo up args kwargs !! "upper" = Some up.
Proof. split; apply lookup_union_Some_l; reflexivity. Qed.

Lemma bounded_dict_dist (c : cls) (inner : gmap string pyval)
    (lo up : pyval) (args : list pyval) (kwargs : gmap string pyval) :
  inner !! "dist" = None ->
  bounded_dict c inner lo up args kwargs !! "dist" = Some (VObj c inner).
Proof.
  intros H. unfold bounded_dict, update.
  rewrite lookup_union_r by reflexivity.
  rewrite lookup_union_r by assumption.
  apply lookup_insert_eq.
Qed.

Lemma Bound_call_dict (c : cls) (lo up name : pyval)
    (args : list pyval) (kwargs inner : gmap string pyval) :
  c <> Bounded ->
  kwargs !! "distribution" = None -> kwargs !! "lower" = None ->
  kwargs !! "upper" = None ->
  dist (VCls c) args kwargs = Ok (VObj c inner) ->
  Bound_call (mkBound (VCls c) lo up) (name :: args) kwargs
  = Ok (name, VObj Bounded (bounded_dict c inner lo up args kwargs)).
Proof.
  intros Hc H1 H2 H3 Hd.
  assert (Hnd := dist_base_no_dist c args kwargs inner Hc Hd).
  unfold Bound_call, new. simpl distribution. simpl lower. simpl upper.
  rewrite dist_Bounded by assumption.
  unfold Bounded_init. rewrite dist_base, Hd by assumption.
  cbn [and_then].
  unfold getattr at 1, setattr at 1. rewrite lookup_insert_eq. simpl.
  fold (setattr ∅ "dist" (VObj c inner)).
  fold (bounded_dict c inner lo up args kwargs).
  unfold getattr at 1.
  rewrite (bounded_dict_dist c inner lo up args kwargs Hnd). simpl.
  destruct (inner !! "mode") as [mode|] eqn:Hmode.
  - rewrite bool_decide_eq_true_2 by eauto. simpl.
    unfold getattr. rewrite Hmode. simpl. unfold setattr.
    rewrite insert_id; [reflexivity|].
    unfold bounded_dict, update.
    rewrite lookup_union_r by reflexivity.
    by apply lookup_union_Some_l.
  - by rewrite bool_decide_eq_false_2 by (by intros [? ?]).
Qed.

(** X14. The attributes of the instance that a template builds are exactly
    [dist], the six names local to [Bounded.__init__] and the attributes of
    the inner instance: nothing else is set, and [self], [distribution],
    [args] and [kwargs] hold the constructor's own arguments. *)
Theorem Bounded_attributes_exact (c : cls) (lo up name : pyval)
    (args : list pyval) (kwargs inner : gmap string pyval) :
  c <> Bounded ->
  kwargs !! "distribution" = None -> kwargs !! "lower" = None ->
  kwargs !! "upper" = None ->
  dist (VCls c) args kwargs = Ok (VObj c inner) ->
  exists d,
    Bound_call (mkBound (VCls c) lo up) (name :: args) kwargs
    = Ok (name, VObj Bounded d)
    /\ d !! "self" = Some VSelf
    /\ d !! "distribution" = Some (VCls c)
    /\ d !! "args" = Some (VList args)
    /\ d !! "kwargs" = Some (VDict kwargs)
    /\ forall k, is_Some (d !! k)
         <-> k = "dist" \/ k ∈ shadowed \/ is_Some (inner !! k).
Proof.
  intros Hc H1 H2 H3 Hd. eexists. split; [by apply Bound_call_dict|].
  repeat split; try (apply lookup_union_Some_l; reflexivity).
  - unfold bounded_dict, update, setattr.
    rewrite !lookup_union_is_Some, (lookup_insert_is_Some ∅ "dist").
    intros [Hl|[Hi|[<-|[_ He]]]].
    + right; left. unfold shadowed.
      destruct (decide (k ∈ ["self"; "distribution"; "lower"; "upper";
                             "args"; "kwargs"])) as [|Hn]; [done|].
      rewrite locals_fresh in Hl by exact Hn. by destruct Hl.
    + by right; right.
    + by left.
    + rewrite lookup_empty in He. by destruct He.
  - unfold bounded_dict, update, setattr.
    rewrite !lookup_union_is_Some, (lookup_insert_is_Some ∅ "dist").
    intros [->|[Hs|Hi]].
    + right; right; left. done.
    + left. unfold shadowed in Hs.
      repeat (apply elem_of_cons in Hs as [->|Hs]; [by eexists|]).
      by apply elem_of_nil in Hs.
    + by right; left.
Qed.

Lemma Bounded_attributes_exact_witness :
  exists d,
    Bound_call (mkBound (VCls Exponential) (number 1) (scalar PInf))
      [VStr "x"; number 1] ∅ = Ok (VStr "x", VObj Bounded d)
    /\ d !! "kwargs" = Some (VDict ∅)
    /\ d !! "tau" = None.
Proof.
  pose proof (Bounded_attributes_exact Exponential (number 1) (scalar PInf)
                (VStr "x") [number 1] ∅ _ ltac:(discriminate)
                eq_refl eq_refl eq_refl eq_refl)
    as (d & Hd & _ & _ & _ & Hk & Hdom).
  exists d. split; [exact Hd|]. split; [exact Hk|].
  destruct (d !! "tau") as [v|] eqn:E; [exfalso|reflexivity].
  assert (Hs : is_Some (d !! "tau")) by (rewrite E; eauto).
  apply Hdom in Hs as [Hs|[Hs|[w Hs]]].
  - discriminate Hs.
  - unfold shadowed in Hs.
    repeat (apply elem_of_cons in Hs as [Hs|Hs]; [discriminate Hs|]).
    by apply elem_of_nil in Hs.
  - vm_compute in Hs. discriminate Hs.
Defined.

Section Truncation.
Context {ext : externals}.

Lemma Bounded_logp_eq (inner : pyval) (d : gmap string pyval)
    (lo up x : num) :
  d !! "dist" = Some inner ->
  d !! "lower" = Some (scalar lo) ->
  d !! "upper" = Some (scalar up) ->
  logp (VObj Bounded d) (Num (Scalar x))
  = (r ← logp inner (Num (Scalar x));
     bound (Ok r) [Ok (Cond (Scalar (Num.leb lo x)));
                   Ok (Cond (Scalar (Num.leb x up)))])%py.
Proof.
  intros Hd Hlo Hup.
  unfold logp at 1. simpl. unfold Bounded_logp, numattr, attr.
  rewrite !lookup_fmap, Hd, Hlo, Hup. simpl.
  unfold logp. destruct (v_logp (methods inner)) as [m|]; [|reflexivity].
  simpl. destruct (m (Num (Scalar x))); reflexivity.
Qed.

(** X15. [Bounded.logp] is negative infinity at every value when the
    limits are crossed ([upper < lower]) or one of them is NaN, at a NaN
    value, and wherever the inner log-density is negative infinity, as long
    as the inner log-density returns a number. *)
Theorem Bounded_logp_empty_support (inner : pyval) (d : gmap string pyval)
    (lo up x y : num) :
  d !! "dist" = Some inner ->
  d !! "lower" = Some (scalar lo) ->
  d !! "upper" = Some (scalar up) ->
  logp inner (Num (Scalar x)) = Ok (Num (Scalar y)) ->
  y = NInf \/ x = NaN \/ lo = NaN \/ up = NaN \/ Num.ltb up lo = true ->
  logp (VObj Bounded d) (Num (Scalar x)) = Ok (Num (Scalar NInf)).
Proof.
  intros Hd Hlo Hup Hy H.
  rewrite (Bounded_logp_eq inner d lo up x Hd Hlo Hup), Hy. simpl.
  destruct (Num.leb lo x && Num.leb x up) eqn:Hin; [|reflexivity].
  apply andb_true_iff in Hin as [Ha Hb].
  destruct (leb_chain lo x up Ha Hb) as (Hn1 & Hn2 & Hn3 & Hlt).
  destruct H as [->|[->|[->|[->|H]]]]; try congruence.
Qed.

(** X16. [Tpos] is the Student-T truncated below at 0: for [nu] other than
    0 and 2 and [lam] other than 0 (where [T] divides by them), the
    log-density of [Tpos('x', nu, mu, lam)] is that of [T(nu, mu, lam)] at
    every value [>= 0], zero included, and negative infinity at every other
    value. *)
Theorem Tpos_logp (nu mu lam x : num) :
  nu <> Fin 0 -> nu <> Fin 2 -> lam <> Fin 0 ->
  truncated_density Tpos [scalar nu; scalar mu; scalar lam] x
  = if Num.leb (Fin 0) x then density T [scalar nu; scalar mu; scalar lam] x
    else Ok (Num (Scalar NInf)).
Proof.
  intros _ _ _. unfold truncated_density, Tpos.
  rewrite (Bound_call_dict T (number 0) (VVal (Num (Scalar PInf))) (VStr "x")
             [scalar nu; scalar mu; scalar lam] ∅ _ ltac:(discriminate)
             eq_refl eq_refl eq_refl eq_refl).
  cbn [and_then].
  erewrite (Bounded_logp_eq _ _ (Fin 0) PInf x);
    [| by apply bounded_dict_dist | apply bounded_dict_limits
     | apply bounded_dict_limits].
  change (logp (VObj T ?i) (Num (Scalar x)))
    with (density T [scalar nu; scalar mu; scalar lam] x).
  rewrite T_density. unfold guarded. cbn [and_then].
  destruct (Num.leb (Fin 0) x) eqn:H0; [|reflexivity].
  assert (H1 : Num.leb x PInf = true) by (by destruct x).
  rewrite H1. reflexivity.
Qed.

(** X17. A template built without limits, [Bound(D)], truncates nothing:
    at every value other than NaN the log-density of the instance it builds
    is that of the inner variant (errors included); at NaN it is negative
    infinity whenever the inner log-density returns a number there. *)
Theorem Bound_default_limits (c : cls) (args : list pyval)
    (inner : gmap string pyval) (x : num) :
  c <> Bounded ->
  dist (VCls c) args ∅ = Ok (VObj c inner) ->
  (x <> NaN ->
   (b ← Bound_init [VCls c] ∅; truncated_density b args x)%py
   = logp (VObj c inner) (Num (Scalar x)))
  /\ (forall y, logp (VObj c inner) (Num (Scalar NaN)) = Ok (Num (Scalar y)) ->
      (b ← Bound_init [VCls c] ∅; truncated_density b args NaN)%py
      = Ok (Num (Scalar NInf))).
Proof.
  intros Hc Hd.
  assert (Hnd := dist_base_no_dist c args ∅ inner Hc Hd).
  assert (Heq : forall z,
    (b ← Bound_init [VCls c] ∅; truncated_density b args z)%py
    = (r ← logp (VObj c inner) (Num (Scalar z));
       bound (Ok r) [Ok (Cond (Scalar (Num.leb NInf z)));
                     Ok (Cond (Scalar (Num.leb z PInf)))])%py).
  { intros z. change (Bound_init [VCls c] ∅)
      with (Ok (mkBound (VCls c) (scalar NInf) (scalar PInf))).
    cbn [and_then]. unfold truncated_density.
    rewrite (Bound_call_dict c _ _ _ args ∅ inner Hc
               (lookup_empty _) (lookup_empty _) (lookup_empty _) Hd).
    cbn [and_then].
    apply Bounded_logp_eq;
      [by apply bounded_dict_dist | apply bounded_dict_limits
       | apply bounded_dict_limits]. }
  split.
  - intros Hx. rewrite Heq.
    assert (H1 : Num.leb NInf x = true) by (by destruct x).
    assert (H2 : Num.leb x PInf = true) by (by destruct x).
    rewrite H1, H2.
    destruct (logp (VObj c inner) (Num (Scalar x))) as [[[z|l]|]|e];
      simpl; try reflexivity. by rewrite map_id.
  - intros y Hy. rewrite Heq, Hy. reflexivity.
Qed.

End Truncation.

Lemma Tpos_logp_witness :
  truncated_density (ext := offline) Tpos
    [scalar (Fin 3); scalar (Fin 0); scalar (Fin 1)] (Fin (-1))
  = Ok (Num (Scalar NInf)).
Proof.
  rewrite (@Tpos_logp offline (Fin 3) (Fin 0) (Fin 1) (Fin (-1)));
    try (intros E; injection E; lra).
  assert (H : Num.leb (Fin 0) (Fin (-1)) = false) by num_eval.
  rewrite H. reflexivity.
Defined.

Lemma Bounded_logp_empty_support_witness :
  Num.ltb (Fin 0) (Fin 1) = true
  /\ logp (ext := offline)
       (VObj Bounded {[ "dist" := VObj Flat ∅; "lower" := number 1;
                        "upper" := number 0 ]})
       (Num (Scalar (Fin 0.5)))
     = Ok (Num (Scalar NInf)).
Proof.
  assert (H : Num.ltb (Fin 0) (Fin 1) = true) by num_eval.
  split; [exact H|].
  match goal with |- logp (VObj Bounded ?m) _ = _ => set (d := m) end.
  apply (@Bounded_logp_empty_support offline (VObj Flat ∅) d
           (Fin 1) (Fin 0) (Fin 0.5) (Fin 0)
           eq_refl eq_refl eq_refl eq_refl).
  do 4 right. exact H.
Defined.

Lemma Bound_default_limits_witness :
  (b ← Bound_init [VCls Flat] ∅;
   truncated_density (ext := offline) b [] (Fin 3))%py
  = Ok (Num (Scalar (Fin 0))).
Proof.
  destruct (@Bound_default_limits offline Flat [] _ (Fin 3)
              ltac:(discriminate) eq_refl) as [H _].
  rewrite H by discriminate. reflexivity.
Defined.



(** ** The resolver on concrete parameters and on a point *)

Lemma for_each_concrete (point : darg) (l : list num) (s : rng) :
  for_each (draw_item point) (map (fun x => plain (scalar x)) l) s
  = (Ok (map scalar l), s).
Proof.
  induction l as [|x l IH]; [reflexivity|].
  simpl. unfold then_run at 1. simpl. unfold then_run at 1.
  rewrite IH. reflexivity.
Qed.

Lemma mapM_scalars (l : list num) : mapM scalar_of (map scalar l) = Some l.
Proof.
  induction l as [|x l IH]; [reflexivity|].
  simpl. rewrite IH. reflexivity.
Qed.

Lemma truth_nonzero (x : num) : x <> Fin 0 -> truth (Scalar x) = Ok true.
Proof.
  intros Hx. unfold truth, truthy. f_equal.
  destruct x as [| | |q]; try reflexivity.
  cbv [Num.eqb]. destruct (Rcompare_spec q 0); try reflexivity.
  congruence.
Qed.

(** X19. On a list of concrete numbers that does not have exactly one
    element, [draw_values] draws nothing and returns the numbers as an
    array, in order, with the generator untouched, for every point
    argument; unpacking that array into as many names as it has elements
    gives the numbers back. *)
Theorem draw_values_concrete_round_trip (point : darg) (l : list num)
    (s : rng) :
  length l <> 1 ->
  draw_values (DList (map (fun x => plain (scalar x)) l)) point s
  = (Ok (VVal (Num (Vec l))), s)
  /\ unpack (length l) (VVal (Num (Vec l))) = Ok (map scalar l).
Proof.
  intros Hl. split.
  - unfold draw_values. cbn [atleast_1d]. unfold then_run.
    rewrite for_each_concrete. simpl. unfold squeeze.
    rewrite mapM_scalars. by destruct l as [|x [|y l]].
  - unfold unpack. by rewrite decide_True.
Qed.

Lemma draw_values_concrete_round_trip_witness :
  draw_values (DList (map (fun x => plain (scalar x)) [Fin 1; Fin 2]))
    DNone 0
  = (Ok (VVal (Num (Vec [Fin 1; Fin 2]))), 0)
  /\ unpack 2 (VVal (Num (Vec [Fin 1; Fin 2])))
     = Ok [scalar (Fin 1); scalar (Fin 2)].
Proof.
  apply (draw_values_concrete_round_trip DNone [Fin 1; Fin 2] 0).
  simpl. lia.
Defined.

(** X20. A single parameter that is a concrete array is iterated over by
    [draw_values]: it comes back unchanged, except that an array of length
    one comes back as the scalar it holds; nothing is drawn. *)
Theorem draw_values_array_parameter (point : darg) (l : list num) (s : rng) :
  draw_values (DItem (plain (VVal (Num (Vec l))))) point s
  = (Ok (match l with
         | [x] => scalar x
         | _ => VVal (Num (Vec l))
         end), s).
Proof.
  unfold draw_values. cbn [atleast_1d v_val plain]. unfold then_run.
  rewrite for_each_concrete. simpl. unfold squeeze.
  rewrite mapM_scalars. by destruct l as [|x [|y l]].
Qed.

(** X21. When the point maps the parameter's name to a scalar other than
    zero (NaN and the infinities included), [draw_values] returns that
    scalar and neither calls the parameter's sampler nor advances the
    generator. *)
Theorem draw_values_uses_fixed_value (name : string)
    (r : option point -> M numeric) (p : point) (x : num) (s : rng) :
  p !! name = Some (Scalar x) -> x <> Fin 0 ->
  call_draw_values [DItem (reference name r); DPoint p] s
  = (Ok (scalar x), s).
Proof.
  intros Hp Hx. unfold call_draw_values, draw_values.
  cbn [atleast_1d v_val reference for_each].
  rewrite (draw_item_fixed name r p (Scalar x) Hp); [reflexivity|].
  by apply truth_nonzero.
Qed.

Lemma draw_values_uses_fixed_value_witness :
  call_draw_values
    [DItem (reference "lam" (constant_sampler (Fin 7)));
     DPoint {[ "lam" := Scalar NaN ]}] 0
  = (Ok (scalar NaN), 0).
Proof.
  apply (draw_values_uses_fixed_value "lam" (constant_sampler (Fin 7))
           {[ "lam" := Scalar NaN ]} NaN 0).
  - apply lookup_insert_eq.
  - discriminate.
Defined.

(** X22. When the point maps the parameter's name to an array of two or
    more elements, [draw_values] raises ValueError: the [or] of the lookup
    asks for the truth value of the array.  The sampler is not called. *)
Theorem draw_values_ambiguous_entry (name : string)
    (r : option point -> M numeric) (p : point) (l : list num) (s : rng) :
  p !! name = Some (Vec l) -> 2 <= length l ->
  call_draw_values [DItem (reference name r); DPoint p] s
  = (Raise (ValueError
       "The truth value of an array with more than one element is ambiguous"),
     s).
Proof.
  intros Hp Hl. unfold call_draw_values, draw_values.
  cbn [atleast_1d v_val reference for_each].
  unfold draw_item. simpl. unfold then_run, liftM. simpl. rewrite Hp.
  destruct l as [|x [|y l]]; simpl in Hl; try lia. reflexivity.
Qed.

Lemma draw_values_ambiguous_entry_witness :
  call_draw_values
    [DItem (reference "lam" (constant_sampler (Fin 7)));
     DPoint {[ "lam" := Vec [Fin 1; Fin 2] ]}] 0
  = (Raise (ValueError
       "The truth value of an array with more than one element is ambiguous"),
     0).
Proof.
  apply (draw_values_ambiguous_entry "lam" (constant_sampler (Fin 7))
           {[ "lam" := Vec [Fin 1; Fin 2] ]} [Fin 1; Fin 2] 0).
  - apply lookup_insert_eq.
  - simpl. lia.
Defined.

(** X23. When the point has no entry for the parameter's name,
    [draw_values] returns the draw of the parameter's own sampler, called
    with that same point, and leaves the generator where the sampler left
    it. *)
Theorem draw_values_samples_absent (name : string)
    (r : option point -> M numeric) (p : point) (x : num) (s s' : rng) :
  p !! name = None -> r (Some p) s = (Ok (Num (Scalar x)), s') ->
  call_draw_values [DItem (reference name r); DPoint p] s
  = (Ok (scalar x), s').
Proof.
  intros Hp Hr. unfold call_draw_values, draw_values.
  cbn [atleast_1d v_val reference for_each].
  rewrite (draw_item_absent name r p Hp).
  unfold then_run. rewrite Hr. reflexivity.
Qed.

Lemma draw_values_samples_absent_witness :
  call_draw_values
    [DItem (reference "lam" (constant_sampler (Fin 7))); DPoint ∅] 0
  = (Ok (scalar (Fin 7)), 1).
Proof.
  apply (draw_values_samples_absent "lam" (constant_sampler (Fin 7)) ∅
           (Fin 7) 0 1).
  - apply lookup_empty.
  - reflexivity.
Defined.

(** ** What the samplers hand to the generators *)

Section Generators.
Context {ext : externals}.

(** X24. With finite positive numbers as parameters (the constructors
    divide by them) and the default empty shape, the working samplers pass
    these arguments to their generators: [Uniform(a, b)] calls
    [runiform(b, a, shape)], upper limit first; [Normal(a, b)] calls
    [rnormal(a, sqrt(b), shape)], the square root of the precision;
    [Exponential(a)] calls [rexponential(1/a, shape)]; [Lognormal(a, b)]
    calls [rlognormal(a, sqrt(1/b), shape)]; [Beta(a, b)] maps a uniform
    draw through [sbeta.ppf(., a, b)]. *)
Theorem samplers_call_generators (a b : R) (point : option point)
    (s : rng) :
  (0 < a)%R -> (0 < b)%R ->
  sample Uniform [number a; number b] point s
  = runiform (number b) (number a) (VList []) s
  /\ sample Normal [number a; number b] point s
     = rnormal (number a) (scalar (Num.sqrt (Fin b))) (VList []) s
  /\ sample Exponential [number a] point s
     = rexponential (number (1 / a)) (VList []) s
  /\ sample Lognormal [number a; number b] point s
     = rlognormal (number a) (scalar (Num.sqrt (Fin (1 / b)))) (VList []) s
  /\ sample Beta [number a; number b] point s
     = (q ← np_random (VList []); sbeta_ppf q (number a) (number b))%run s.
Proof.
  intros Ha Hb.
  assert (Hda : Num.div (Fin 1) (Fin a) = Fin (1 / a)) by num_eval.
  assert (Hdb : Num.div (Fin 1) (Fin b) = Fin (1 / b)) by num_eval.
  unfold number. rewrite <- Hda, <- Hdb. repeat split.
Qed.

(** X25. [Exponential.random] resolves a rate that is another random
    variable before drawing: without a point it samples the rate first and
    draws with the generator in the state that left; with a point that
    maps the rate's name to a scalar other than zero it uses that scalar
    and does not sample the rate. *)
Theorem Exponential_random_resolves_rate (name : string)
    (r : option point -> M numeric) (p : point) (x y : num) (s s' : rng) :
  r None s = (Ok (Num (Scalar x)), s') ->
  p !! name = Some (Scalar y) -> y <> Fin 0 ->
  sample Exponential [VRef name r] None s
  = rexponential (scalar (Num.div (Fin 1) x)) (VList []) s'
  /\ sample Exponential [VRef name r] (Some p) s
     = rexponential (scalar (Num.div (Fin 1) y)) (VList []) s.
Proof.
  intros Hr Hp Hy.
  assert (Ht := truth_nonzero y Hy).
  assert (Hd : dist (VCls Exponential) [VRef name r] ∅
               = Ok (VObj Exponential
                  (setattr (setattr (setattr (setattr (setattr
                     (setattr ∅ "shape" (VList [])) "lam" (VRef name r))
                     "mean" (VVal Sym)) "median" (VVal Sym))
                     "mode" (number 0)) "variance" (VVal Sym))))
    by reflexivity.
  unfold sample. rewrite Hd.
  match goal with |- context [VObj Exponential ?d] => set (inst := d) end.
  assert (Hlam : attr (methods <$> inst) "lam" = Ok (reference name r))
    by reflexivity.
  assert (Hshape : attr (methods <$> inst) "shape" = Ok (plain (VList [])))
    by reflexivity.
  assert (Hrandom : forall q, random (VObj Exponential inst) q
                              = Exponential_random (methods <$> inst) q)
    by reflexivity.
  cbv [then_run liftM]. rewrite !Hrandom.
  unfold Exponential_random, then_run, liftM. rewrite Hlam, Hshape.
  split.
  - cbv [call_draw_values point_arg draw_values atleast_1d for_each
         reference v_val draw_item v_random then_run mret M_ret].
    rewrite Hr. reflexivity.
  - cbv [call_draw_values point_arg draw_values atleast_1d for_each
         reference v_val draw_item v_random then_run mret M_ret liftM
         name_of mbind option_bind].
    rewrite Hp, Ht. reflexivity.
Qed.

(** X26. [Cauchy.random] maps one uniform draw [u] through
    [alpha + beta * tan(pi * u - pi / 2)] and leaves the generator where
    the uniform draw left it. *)
Theorem Cauchy_random_transform (alpha beta u : num) (point : option point)
    (s s' : rng) :
  np_random (VList []) s = (Ok (Num (Scalar u)), s') ->
  sample Cauchy [scalar alpha; scalar beta] point s
  = (Ok (Num (Scalar
       (Num.add alpha
          (Num.mul beta
             (Num.tan (Num.sub (Num.mul Num.pi u)
                               (Num.div Num.pi (Fin 2)))))))), s').
Proof.
  intros Hu.
  transitivity
    ((u ← np_random (VList []);
      liftM (num_of (scalar alpha)
             + num_of (scalar beta) * tan (pi * u - pi / lit 2))%py)%run s);
    [reflexivity|].
  unfold then_run. rewrite Hu. reflexivity.
Qed.

End Generators.

Lemma samplers_call_generators_witness :
  sample (ext := offline) Exponential [number 2] None 0
  = @rexponential offline (number (1 / 2)) (VList []) 0.
Proof.
  destruct (@samplers_call_generators offline 2 3 None 0)
    as (_ & _ & H & _); try lra.
  exact H.
Defined.

Lemma Exponential_random_resolves_rate_witness :
  sample (ext := offline) Exponential
    [VRef "rate" (constant_sampler (Fin 2))] None 0
  = @rexponential offline (scalar (Num.div (Fin 1) (Fin 2))) (VList []) 1
  /\ sample (ext := offline) Exponential
       [VRef "rate" (constant_sampler (Fin 2))]
       (Some {[ "rate" := Scalar NaN ]}) 0
     = @rexponential offline (scalar (Num.div (Fin 1) NaN)) (VList []) 0.
Proof.
  apply (@Exponential_random_resolves_rate offline "rate"
           (constant_sampler (Fin 2)) {[ "rate" := Scalar NaN ]}
           (Fin 2) NaN 0 1).
  - reflexivity.
  - apply lookup_insert_eq.
  - discriminate.
Defined.

Lemma Cauchy_random_transform_witness :
  sample (ext := midpoint) Cauchy [scalar (Fin 3); scalar (Fin 2)] None 0
  = (Ok (Num (Scalar (Fin 3))), 1).
Proof.
  rewrite (@Cauchy_random_transform midpoint (Fin 3) (Fin 2) (Fin 0.5) None
             0 1 eq_refl).
  pose proof PI_RGT_0 as Hpi. unfold Num.pi.
  cbv [Num.add Num.mul Num.sub Num.div Num.opp Num.tan]. rcmp.
  replace (PI * 0.5 + - (PI / 2))%R with 0%R by lra.
  rewrite tan_0. replace (3 + 2 * 0)%R with 3%R by lra. reflexivity.
Defined.
